(** * FinMind: frontend API clients, money formatting, reminder offsets and
      the budget-suggestion engine

    A shallow embedding of the TypeScript sources of the FinMind frontend
    ([lib/currency.ts], [api/reminders.ts], the two revisions of
    [api/insights.ts], the Reminders, Budgets and Analytics pages, the
    route guard) together with a model of the budget-suggestion engine
    the frontend talks to.

    JavaScript values are modelled as follows.
    - Strings are [string]; the model covers ASCII text (a code unit is one
      [ascii]); [toUpperCase] and white space are the ASCII parts of the
      JavaScript definitions.  A property that depends on how a text is
      trimmed or put in upper case is stated for [ascii_text].
    - Numbers are [JSNumber]: NaN, the two infinities, or a finite value
      kept as an exact rational.  [-0] is identified with [0]: nothing in
      the modelled code tells them apart.  [Number(string)] and the
      arithmetic round to the nearest IEEE double ([to_number]), with
      overflow to an infinity and underflow to the subnormals and zero.
      A property that depends on the digits of an amount is stated for
      [is_Number] amounts, the rationals that are doubles.
    - An optional argument or property is an [option]; [None] stands for
      [undefined] and [null].
    - A thrown exception is the [Throw] case of [Completion]. *)

From Stdlib Require Import ZArith QArith Qabs Qround String Ascii List Lia Lqa.
From Stdlib Require Qcanon.
From stdpp Require Import gmap strings pretty.

Import ListNotations.
Local Open Scope string_scope.

(** ** The JavaScript runtime the sources rely on *)

Module JS.

Inductive JSNumber : Type :=
| JNaN
| JInfinity (negative : bool)
| JFinite (q : Q).

Inductive Exception : Type :=
| RangeError.

Inductive Completion (A : Type) : Type :=
| Normal (a : A)
| Throw (e : Exception).
Arguments Normal {A} a.
Arguments Throw {A} e.

(** [try { body } catch { handler }] *)
Definition try_catch {A : Type} (body : Completion A) (handler : Completion A)
  : Completion A :=
  match body with
  | Normal a => Normal a
  | Throw _ => handler
  end.

(** *** Truthiness ([ToBoolean]) *)

Definition Qis_zero (q : Q) : bool := Qeq_bool q 0.

Definition number_truthy (x : JSNumber) : bool :=
  match x with
  | JNaN => false
  | JInfinity _ => true
  | JFinite q => negb (Qis_zero q)
  end.

Definition string_truthy (s : string) : bool :=
  match s with
  | EmptyString => false
  | String _ _ => true
  end.

(** [a || b] on optional strings, [b] being a string. *)
Definition or_else (a : option string) (b : string) : string :=
  match a with
  | Some s => if string_truthy s then s else b
  | None => b
  end.

(** [amount || 0] for a number that may be [null] or [undefined] at run
    time; [Number(_)] of the result is the identity. *)
Definition number_or_zero (a : option JSNumber) : JSNumber :=
  match a with
  | Some x => if number_truthy x then x else JFinite 0
  | None => JFinite 0
  end.

(** *** Comparisons and [Number.isFinite] *)

Definition isFinite (x : JSNumber) : bool :=
  match x with
  | JFinite _ => true
  | _ => false
  end.

(** [x >= 0] *)
Definition ge_zero (x : JSNumber) : bool :=
  match x with
  | JNaN => false
  | JInfinity negative => negb negative
  | JFinite q => Qle_bool 0 q
  end.

(** *** Characters *)

Definition code (c : ascii) : N := N_of_ascii c.

Definition in_range (lo hi : N) (c : ascii) : bool :=
  ((lo <=? code c) && (code c <=? hi))%N.

Definition is_digit (c : ascii) : bool := in_range 48 57 c.
Definition is_lower (c : ascii) : bool := in_range 97 122 c.
Definition is_upper (c : ascii) : bool := in_range 65 90 c.
Definition is_alpha (c : ascii) : bool := is_lower c || is_upper c.

(** TAB, LF, VT, FF, CR and SP: the ASCII members of WhiteSpace and
    LineTerminator.  (U+00A0, U+FEFF, U+2028, U+2029 and the space
    separators are the others; they are not ASCII.) *)
Definition is_white_space (c : ascii) : bool :=
  in_range 9 13 c || (code c =? 32)%N.

Definition upper_char (c : ascii) : ascii :=
  if is_lower c then ascii_of_N (code c - 32) else c.

(** *** Strings *)

Fixpoint map_string (f : ascii -> ascii) (s : string) : string :=
  match s with
  | EmptyString => EmptyString
  | String c s' => String (f c) (map_string f s')
  end.

Fixpoint forallb_string (p : ascii -> bool) (s : string) : bool :=
  match s with
  | EmptyString => true
  | String c s' => p c && forallb_string p s'
  end.

(** [s.toUpperCase()] of ASCII text: the letters a to z. *)
Definition toUpperCase (s : string) : string := map_string upper_char s.

Fixpoint drop_white_space (s : string) : string :=
  match s with
  | EmptyString => EmptyString
  | String c s' => if is_white_space c then drop_white_space s' else s
  end.

Fixpoint rev_string (acc s : string) : string :=
  match s with
  | EmptyString => acc
  | String c s' => rev_string (String c acc) s'
  end.

(** [s.trim()] of ASCII text. *)
Definition trim (s : string) : string :=
  rev_string "" (drop_white_space (rev_string "" (drop_white_space s))).

(** [s.split(sep)] for a separator of one character: never empty, the
    empty string splits into one empty token. *)
Fixpoint split (sep : ascii) (s : string) : list string :=
  match s with
  | EmptyString => [""]
  | String c s' =>
      if Ascii.eqb c sep then "" :: split sep s'
      else match split sep s' with
           | tok :: rest => String c tok :: rest
           | [] => [String c ""]
           end
  end.

(** *** [Number(string)]: StringToNumber *)

(** The longest prefix of characters satisfying [p], and the rest. *)
Fixpoint span (p : ascii -> bool) (s : string) : string * string :=
  match s with
  | EmptyString => ("", "")
  | String c s' =>
      if p c then let '(a, b) := span p s' in (String c a, b)
      else ("", s)
  end.

Definition digit_value (c : ascii) : Z :=
  if is_digit c then Z.of_N (code c - 48)
  else if in_range 97 102 c then Z.of_N (code c - 87)
  else if in_range 65 70 c then Z.of_N (code c - 55)
  else 0.

Definition is_hex_digit (c : ascii) : bool :=
  is_digit c || in_range 97 102 c || in_range 65 70 c.
Definition is_octal_digit (c : ascii) : bool := in_range 48 55 c.
Definition is_binary_digit (c : ascii) : bool := in_range 48 49 c.

(** The mathematical value of a string of digits in base [base]. *)
Fixpoint digits_value (base : Z) (acc : Z) (s : string) : Z :=
  match s with
  | EmptyString => acc
  | String c s' => digits_value base (acc * base + digit_value c) s'
  end.

(** [m * 10 ^ e] as a rational. *)
Definition scale10 (m e : Z) : Q :=
  if (0 <=? e)%Z then inject_Z (m * 10 ^ e)
  else Qmake m (Z.to_pos (10 ^ (- e))).

(** [2 ^ e] as a rational. *)
Definition pow2 (e : Z) : Q :=
  if (0 <=? e)%Z then inject_Z (2 ^ e) else Qmake 1 (Z.to_pos (2 ^ (- e))).

(** The exponent of a positive value: the [e] with [2 ^ e <= a < 2 ^ (e + 1)]. *)
Definition binade (a : Q) : Z :=
  let e := (Z.log2 (Qnum a) - Z.log2 (Z.pos (Qden a)))%Z in
  if Qle_bool (pow2 e) a then e else (e - 1)%Z.

(** The nearest integer, a tie going to the even one. *)
Definition round_half_even (x : Q) : Z :=
  let f := Qfloor x in
  match ((x - inject_Z f) ?= (1 # 2))%Q with
  | Lt => f
  | Gt => (f + 1)%Z
  | Eq => if Z.even f then f else (f + 1)%Z
  end.

(** The Number value for a mathematical value: the nearest double, ties
    to even.  A double has 53 significant bits and an exponent of at
    least -1022 (below it the subnormals share the spacing [2 ^ -1074]);
    what rounds to [2 ^ 1024] or more is an infinity. *)
Definition to_number (q : Q) : JSNumber :=
  if Qis_zero q then JFinite 0
  else
    let a := Qabs q in
    let ulp := pow2 (Z.max (binade a) (-1022) - 52) in
    let r := (inject_Z (round_half_even (a / ulp)) * ulp)%Q in
    if Qle_bool (pow2 1024) r then JInfinity (negb (Qle_bool 0 q))
    else JFinite (Qred (if Qle_bool 0 q then r else (- r)%Q)).

Definition negate (x : JSNumber) : JSNumber :=
  match x with
  | JNaN => JNaN
  | JInfinity negative => JInfinity (negb negative)
  | JFinite q => JFinite (Qred (- q))
  end.

(** ExponentPart, or nothing: [Some e] for a well-formed suffix. *)
Definition parse_exponent (s : string) : option Z :=
  match s with
  | EmptyString => Some 0%Z
  | String c s' =>
      if (Ascii.eqb c "e" || Ascii.eqb c "E")%char then
        let '(negative, ds) :=
          match s' with
          | String "+" r => (false, r)
          | String "-" r => (true, r)
          | _ => (false, s')
          end in
        match ds with
        | EmptyString => None
        | _ =>
            if forallb_string is_digit ds then
              let e := digits_value 10 0 ds in
              Some (if negative then (- e)%Z else e)
            else None
        end
      else None
  end.

(** StrUnsignedDecimalLiteral *)
Definition parse_unsigned_decimal (s : string) : JSNumber :=
  if String.eqb s "Infinity" then JInfinity false
  else
    let '(int_part, r1) := span is_digit s in
    let '(frac_part, r2) :=
      match r1 with
      | String "." r => span is_digit r
      | _ => ("", r1)
      end in
    match (int_part ++ frac_part)%string with
    | EmptyString => JNaN
    | ds =>
        match parse_exponent r2 with
        | None => JNaN
        | Some e =>
            to_number
              (scale10 (digits_value 10 0 ds)
                       (e - Z.of_nat (String.length frac_part)))
        end
    end.

(** NonDecimalIntegerLiteral after its two character prefix. *)
Definition parse_radix (base : Z) (p : ascii -> bool) (ds : string) : JSNumber :=
  match ds with
  | EmptyString => JNaN
  | _ => if forallb_string p ds
         then to_number (inject_Z (digits_value base 0 ds))
         else JNaN
  end.

Definition StringToNumber (str : string) : JSNumber :=
  match trim str with
  | EmptyString => JFinite 0
  | String "0" (String "x" ds) | String "0" (String "X" ds) =>
      parse_radix 16 is_hex_digit ds
  | String "0" (String "o" ds) | String "0" (String "O" ds) =>
      parse_radix 8 is_octal_digit ds
  | String "0" (String "b" ds) | String "0" (String "B" ds) =>
      parse_radix 2 is_binary_digit ds
  | String "+" s => parse_unsigned_decimal s
  | String "-" s => negate (parse_unsigned_decimal s)
  | s => parse_unsigned_decimal s
  end.

(** *** What the host decides *)

(** [shortest_decimal] is Number::toString on the values the model does
    not print itself (fractions and integers beyond [2 ^ 53]);
    [intl_currency_format currency x] is
    [new Intl.NumberFormat(undefined, {style: 'currency', currency,
    minimumFractionDigits: 2, maximumFractionDigits: 2}).format(x)],
    which depends on the locale of the browser. *)
Record Host : Type := {
  shortest_decimal : Q -> string;
  intl_currency_format : string -> JSNumber -> string
}.

Definition is_safe_integer (q : Q) : bool :=
  (Pos.eqb (Qden (Qred q)) 1 && (Z.abs (Qnum (Qred q)) <=? 2 ^ 53))%Z.

(** [String(x)] *)
Definition NumberToString (h : Host) (x : JSNumber) : string :=
  match x with
  | JNaN => "NaN"
  | JInfinity negative => if negative then "-Infinity" else "Infinity"
  | JFinite q =>
      if is_safe_integer q then pretty (Qnum (Qred q))
      else shortest_decimal h q
  end.

Definition two_digits (d : Z) : string :=
  if (d <? 10)%Z then "0" ++ pretty d else pretty d.

(** [x.toFixed(2)]: the [n] for which [n / 100] is nearest to [x], the
    larger one of two; [x] is the exact value of the double. *)
Definition toFixed2 (h : Host) (x : JSNumber) : string :=
  match x with
  | JFinite q =>
      let s := if Qle_bool 0 q then "" else "-" in
      let a := Qabs q in
      if Qle_bool (inject_Z (10 ^ 21)) a then s ++ NumberToString h (JFinite a)
      else
        let n := Qfloor (a * 100 + (1 # 2)) in
        s ++ pretty (n / 100)%Z ++ "." ++ two_digits (n mod 100)%Z
  | _ => NumberToString h x
  end.

(** *** Percent encoding *)

Definition hex_char (d : N) : ascii :=
  if (d <? 10)%N then ascii_of_N (48 + d) else ascii_of_N (55 + d).

Definition percent_encode (c : ascii) : string :=
  String "%" (String (hex_char (code c / 16)) (String (hex_char (code c mod 16)) "")).

Definition is_alnum (c : ascii) : bool := is_alpha c || is_digit c.

Definition mem_char (c : ascii) (set : string) : bool :=
  existsb (Ascii.eqb c) (list_ascii_of_string set).

(** The characters [encodeURIComponent] leaves alone. *)
Definition uri_unreserved (c : ascii) : bool :=
  is_alnum c || mem_char c "-_.!~*'()".

Fixpoint encode_with (keep : ascii -> bool) (special : ascii -> option string)
    (s : string) : string :=
  match s with
  | EmptyString => EmptyString
  | String c s' =>
      (match special c with
       | Some r => r
       | None => if keep c then String c "" else percent_encode c
       end) ++ encode_with keep special s'
  end.

(** [encodeURIComponent(s)]; it throws on a lone surrogate only, which
    ASCII text does not have. *)
Definition encodeURIComponent (s : string) : string :=
  encode_with uri_unreserved (fun _ => None) s.

(** The application/x-www-form-urlencoded byte serializer. *)
Definition form_urlencode (s : string) : string :=
  encode_with (fun c => is_alnum c || mem_char c "*-._")
              (fun c => if Ascii.eqb c " " then Some "+" else None) s.

(** *** URLSearchParams *)

Definition URLSearchParams : Type := list (string * string).

Fixpoint remove_name (name : string) (l : URLSearchParams) : URLSearchParams :=
  match l with
  | [] => []
  | (n, v) :: l' =>
      if String.eqb n name then remove_name name l'
      else (n, v) :: remove_name name l'
  end.

(** [params.set(name, value)]: the first pair of that name gets the
    value and the others go; a new name is appended. *)
Fixpoint params_set (name value : string) (l : URLSearchParams) : URLSearchParams :=
  match l with
  | [] => [(name, value)]
  | (n, v) :: l' =>
      if String.eqb n name then (n, value) :: remove_name name l'
      else (n, v) :: params_set name value l'
  end.

Fixpoint join (sep : string) (l : list string) : string :=
  match l with
  | [] => ""
  | [a] => a
  | a :: l' => a ++ sep ++ join sep l'
  end.

(** [params.toString()] *)
Definition params_toString (l : URLSearchParams) : string :=
  join "&" (map (fun '(n, v) => form_urlencode n ++ "=" ++ form_urlencode v) l).

(** *** A call of the [api] helper of [api/client.ts]: the path and the
    options object it is given. *)
Record ApiCall : Type := {
  path : string;
  http_method : option string;
  headers : option (gmap string string);
  body : option (gmap string (list JSNumber))
}.

End JS.

Import JS.

(** ** [api/reminders.ts] and the Reminders page *)

Module Reminders.

Definition scheduleBillReminders (h : Host) (billId : JSNumber)
    (offsetsDays : option (list JSNumber)) : ApiCall :=
  {| path := "/reminders/bills/" ++ NumberToString h billId ++ "/schedule";
     http_method := Some "POST";
     headers := None;
     body := Some (match offsetsDays with
                   | Some l =>
                       if (0 <? length l)%nat then {[ "offsets_days" := l ]}
                       else ∅
                   | None => ∅
                   end) |}.

Definition valid_offset (x : JSNumber) : bool := isFinite x && ge_zero x.

(** The [offsets] of [onScheduleBillReminders]. *)
Definition parse_offsets (offsetsInput : string) : list JSNumber :=
  List.filter valid_offset
    (map (fun x => StringToNumber (trim x)) (split "," offsetsInput)).

(** The call of [scheduleBillReminders] in [onScheduleBillReminders];
    [None] when no bill is selected (a toast, no request).  The handler
    as a whole, with the reload of the list that follows a successful
    call, is [RemindersPage.onScheduleBillReminders]. *)
Definition onScheduleBillReminders (h : Host) (selectedBillId offsetsInput : string)
  : option ApiCall :=
  if negb (string_truthy selectedBillId) then None
  else
    let offsets := parse_offsets offsetsInput in
    Some (scheduleBillReminders h (StringToNumber selectedBillId)
            (if (0 <? length offsets)%nat then Some offsets else None)).

End Reminders.

(** ** [lib/currency.ts] *)

Module Currency.

(** IsWellFormedCurrencyCode of ECMA-402: three ASCII letters. *)
Definition IsWellFormedCurrencyCode (currency : string) : bool :=
  (String.length currency =? 3)%nat && forallb_string is_alpha currency.

(** [new Intl.NumberFormat(undefined, {style: 'currency', currency, ...})]
    throws a RangeError for a code that is not well formed. *)
Definition NumberFormat (h : Host) (currency : string)
  : Completion (JSNumber -> string) :=
  if IsWellFormedCurrencyCode currency
  then Normal (intl_currency_format h (toUpperCase currency))
  else Throw RangeError.

(** [(currencyCode || getCurrency() || 'USD').toUpperCase()];
    [stored] is what [getCurrency()] of [lib/auth.ts] returns. *)
Definition currency_of (stored currencyCode : option string) : string :=
  toUpperCase (or_else currencyCode (or_else stored "USD")).

Definition formatMoney (h : Host) (stored : option string)
    (amount : option JSNumber) (currencyCode : option string)
  : Completion string :=
  let currency := currency_of stored currencyCode in
  try_catch
    (match NumberFormat h currency with
     | Normal format => Normal (format (number_or_zero amount))
     | Throw e => Throw e
     end)
    (Normal (currency ++ " " ++ toFixed2 h (number_or_zero amount))).

End Currency.

(** ** [api/insights.ts], the revision the Budgets page imports *)

Module InsightsBudgets.

(** The type of [BudgetSuggestion.method]:
    ['heuristic' | 'heuristic_default' | 'openai']. *)
Definition method_type (v : string) : bool :=
  String.eqb v "heuristic" || String.eqb v "heuristic_default"
  || String.eqb v "openai".

Definition getBudgetSuggestion (h : Host) (month : option string)
    (months : option JSNumber) : ApiCall :=
  let params : URLSearchParams := [] in
  let params :=
    match month with
    | Some m => if string_truthy m then params_set "month" m params else params
    | None => params
    end in
  let params :=
    match months with
    | Some n =>
        if number_truthy n then params_set "months" (NumberToString h n) params
        else params
    | None => params
    end in
  let query := params_toString params in
  {| path := "/insights/budget-suggestion"
             ++ (if string_truthy query then "?" ++ query else "");
     http_method := None;
     headers := None;
     body := None |}.

End InsightsBudgets.

(** ** [api/insights.ts], the revision the Analytics page imports *)

Module InsightsAnalytics.

(** The type of [BudgetSuggestion.method]:
    ['gemini' | 'heuristic' | string]. *)
Definition method_type (v : string) : bool :=
  String.eqb v "gemini" || String.eqb v "heuristic" || true.

Record Params : Type := {
  month : option string;
  geminiApiKey : option string;
  persona : option string
}.

Definition set_if_truthy (name : string) (v : option string)
    (headers : gmap string string) : gmap string string :=
  match v with
  | Some s => if string_truthy s then <[ name := s ]> headers else headers
  | None => headers
  end.

Definition getBudgetSuggestion (params : option Params) : ApiCall :=
  let monthQuery :=
    match params ≫= month with
    | Some m => if string_truthy m then "?month=" ++ encodeURIComponent m else ""
    | None => ""
    end in
  let headers : gmap string string := ∅ in
  let headers := set_if_truthy "X-Gemini-Api-Key" (params ≫= geminiApiKey) headers in
  let headers := set_if_truthy "X-Insight-Persona" (params ≫= persona) headers in
  {| path := "/insights/budget-suggestion" ++ monthQuery;
     http_method := None;
     headers := Some headers;
     body := None |}.

End InsightsAnalytics.

(** ** The budget-suggestion engine

    The server side of [GET /insights/budget-suggestion] is not among the
    sources: only its callers ([api/insights.ts], the Budgets and Analytics
    pages) and the TypeScript types of its response are.  The module below
    follows the algorithm of the specification, step by step.  Amounts are
    exact rationals.  What the specification leaves to the implementer is
    a field of [Policy]; storage and the LLM provider, which it calls
    external collaborators, are the fields of [Collaborators]. *)

Module Engine.

Local Open Scope Q_scope.

(** A calendar month YYYY-MM and a calendar day. *)
Record YearMonth : Type := { ym_year : Z; ym_month : Z }.
Record Date : Type := { d_year : Z; d_month : Z; d_day : Z }.

Definition ym_index (m : YearMonth) : Z := (ym_year m * 12 + (ym_month m - 1))%Z.
Definition ym_of_index (i : Z) : YearMonth :=
  {| ym_year := (i / 12)%Z; ym_month := (i mod 12 + 1)%Z |}.
Definition ym_sub (m : YearMonth) (n : Z) : YearMonth :=
  ym_of_index (ym_index m - n).
Definition valid_month (m : YearMonth) : bool :=
  ((0 <=? ym_year m) && (ym_year m <=? 9999)
   && (1 <=? ym_month m) && (ym_month m <=? 12))%Z.
Definition first_day (m : YearMonth) : Date :=
  {| d_year := ym_year m; d_month := ym_month m; d_day := 1 |}.
Definition month_of (d : Date) : YearMonth :=
  {| ym_year := d_year d; ym_month := d_month d |}.

Inductive ExpenseType : Type := EXPENSE | INCOME.

Record ExpenseRecord : Type := {
  amount : Q;
  currency : string;
  category_id : option Z;
  spent_at : Date;
  expense_type : ExpenseType
}.

Inductive Direction : Type := increasing | decreasing | stable.
Inductive ConfidenceLabel : Type := no_data | low | medium | high | very_high.
Inductive Method : Type := heuristic | heuristic_default | openai | gemini.
Inductive Provider : Type := OpenAI | Gemini.

Definition provider_method (p : Provider) : Method :=
  match p with
  | OpenAI => openai
  | Gemini => gemini
  end.

(** The value of [method] in the JSON response. *)
Definition method_name (m : Method) : string :=
  match m with
  | heuristic => "heuristic"
  | heuristic_default => "heuristic_default"
  | openai => "openai"
  | gemini => "gemini"
  end.

Record CategorySuggestion : Type := {
  cs_category_id : option Z;
  category_name : string;
  suggested_limit : Q;
  average_spending : Q;
  trend_pct : Q;
  trend_direction : Direction;
  cs_months_with_data : nat;
  monthly_history : list (YearMonth * Q)
}.

Record ConfidenceScore : Type := {
  score : Q;
  label : ConfidenceLabel;
  months_analyzed : nat
}.

Record SpendingTrend : Type := {
  direction : Direction;
  change_pct : Q
}.

Record DataRange : Type := {
  months_requested : Z;
  months_with_data : nat;
  oldest_month : option YearMonth;
  newest_month : option YearMonth
}.

Record Breakdown : Type := { needs : Q; wants : Q; savings : Q }.

Record BudgetSuggestion : Type := {
  month : YearMonth;
  suggested_total : Q;
  breakdown : Breakdown;
  confidence : ConfidenceScore;
  spending_trend : option SpendingTrend;
  category_suggestions : list CategorySuggestion;
  data_range : DataRange;
  monthly_totals : option (list (YearMonth * Q));
  method : Method;
  tips : option (list string);
  warnings : option (list string)
}.

Inductive Error : Type := InvalidRangeError | RetrievalError.

Record Options : Type := {
  persona : option string;
  llmApiKey : option string
}.

Record Tips : Type := {
  tip_lines : list string;
  tip_warnings : option (list string)
}.

(** Modelled from the spec: the collaborators of section 6, which are not
    in the sources.  [fetchExpenses userId start end] is the storage
    query ([None]: storage unreachable); [generateTips] is the LLM
    provider ([None]: it failed or timed out); [category_label] is the
    name stored for a category; [current_month] is the calendar month
    of the request. *)
Record Collaborators : Type := {
  fetchExpenses : Z -> Date -> Date -> option (list ExpenseRecord);
  provider : Provider;
  generateTips : Breakdown -> option string -> string -> option Tips;
  category_label : option Z -> string;
  current_month : YearMonth
}.

(** Modelled from the spec: the choices sections 4.1 and 9 leave open.
    [default_total] is the configured default of step 5;
    [confidence_score months_with_data months_requested records] is the
    score formula of step 4 and [low_variance] its variance test;
    [undefined_change_pct] is the [change_pct] reported where the
    formula of step 7 has no positive baseline; [smooth_limit average
    history] is the smoothing of step 8; [default_method_kept] says
    whether [method] stays [heuristic_default] when tips are generated
    for the no-data default: step 5 reports the default so, step 9 sets
    [method] to the name of the provider. *)
Record Policy : Type := {
  default_total : Q;
  confidence_score : nat -> Z -> nat -> Q;
  low_variance : list Q -> bool;
  undefined_change_pct : Q;
  smooth_limit : Q -> list Q -> Q;
  default_method_kept : bool
}.

Definition Qltb (a b : Q) : bool := negb (Qle_bool b a).

Definition ym_eqb (a b : YearMonth) : bool := (ym_index a =? ym_index b)%Z.
Definition ym_ltb (a b : YearMonth) : bool := (ym_index a <? ym_index b)%Z.

(** Modelled from the spec: steps 1 and 2, the amounts grouped by calendar month, oldest month
    first; a month without records has no entry. *)
Fixpoint add_month (k : YearMonth) (v : Q) (l : list (YearMonth * Q))
  : list (YearMonth * Q) :=
  match l with
  | [] => [(k, v)]
  | (k', v') :: l' =>
      if ym_ltb k k' then (k, v) :: l
      else if ym_eqb k k' then (k', v' + v) :: l'
      else (k', v') :: add_month k v l'
  end.

Definition monthly_totals_of (recs : list ExpenseRecord) : list (YearMonth * Q) :=
  fold_right (fun r acc => add_month (month_of (spent_at r)) (amount r) acc) [] recs.

Definition sum_values (l : list (YearMonth * Q)) : Q :=
  fold_right Qplus 0 (map snd l).

Definition average (l : list (YearMonth * Q)) : Q :=
  sum_values l / inject_Z (Z.of_nat (length l)).

(** Modelled from the spec: step 3, the data range. *)
Definition data_range_of (totals : list (YearMonth * Q)) (lookbackMonths : Z)
  : DataRange :=
  {| months_requested := lookbackMonths;
     months_with_data := length totals;
     oldest_month := fst <$> head totals;
     newest_month := fst <$> last totals |}.

(** Modelled from the spec: step 4, the labels of the table given there
    (no data, one month, partial coverage, full coverage) and the score,
    zero without data. *)
Definition label_of (n : nat) (requested : Z) (low_var : bool) : ConfidenceLabel :=
  match n with
  | O => no_data
  | S O => low
  | _ => if (Z.of_nat n <? requested)%Z then medium
         else if (6 <=? n)%nat && low_var then very_high
         else high
  end.

Definition confidence_of (pol : Policy) (totals : list (YearMonth * Q))
    (lookbackMonths : Z) (records : nat) : ConfidenceScore :=
  let n := length totals in
  {| score := match n with
              | O => 0
              | _ => confidence_score pol n lookbackMonths records
              end;
     label := label_of n lookbackMonths (low_variance pol (map snd totals));
     months_analyzed := n |}.

(** Modelled from the spec: step 5, the average of the months with data
    or the configured default. *)
Definition suggested_total_of (pol : Policy) (totals : list (YearMonth * Q)) : Q :=
  match totals with
  | [] => default_total pol
  | _ => average totals
  end.

Definition heuristic_method (totals : list (YearMonth * Q)) : Method :=
  match totals with
  | [] => heuristic_default
  | _ => heuristic
  end.

(** Modelled from the spec: step 6, the fixed 50/30/20 split (an expense record carries no
    needs/wants classification). *)
Definition breakdown_of (total : Q) : Breakdown :=
  {| needs := total * (50 # 100);
     wants := total * (30 # 100);
     savings := total * (20 # 100) |}.

(** Modelled from the spec: step 7, the most recent month with data
    against the one before it. *)
Definition direction_of (change : Q) : Direction :=
  if Qltb (Qabs change) 5 then stable
  else if Qltb 0 change then increasing
  else decreasing.

Definition change_of (pol : Policy) (recent prior : Q) : Q :=
  if Qltb 0 prior then (recent - prior) / prior * 100
  else undefined_change_pct pol.

Definition trend_of (pol : Policy) (totals : list (YearMonth * Q))
  : option SpendingTrend :=
  match rev totals with
  | (_, recent) :: (_, prior) :: _ =>
      let change := change_of pol recent prior in
      Some {| direction := direction_of change; change_pct := change |}
  | _ => None
  end.

(** Modelled from the spec: step 8, one suggestion per category. *)
Definition category_eqb (a b : option Z) : bool :=
  match a, b with
  | Some x, Some y => (x =? y)%Z
  | None, None => true
  | _, _ => false
  end.

(** The categories observed, each once, in the order of first use. *)
Fixpoint categories_of (seen : list (option Z)) (recs : list ExpenseRecord)
  : list (option Z) :=
  match recs with
  | [] => []
  | r :: recs' =>
      if existsb (category_eqb (category_id r)) seen then categories_of seen recs'
      else category_id r :: categories_of (category_id r :: seen) recs'
  end.

Definition category_suggestion (pol : Policy) (coll : Collaborators)
    (recs : list ExpenseRecord) (c : option Z) : CategorySuggestion :=
  let history :=
    monthly_totals_of
      (List.filter (fun r => category_eqb (category_id r) c) recs) in
  let avg := average history in
  let change :=
    match trend_of pol history with
    | Some t => change_pct t
    | None => undefined_change_pct pol
    end in
  {| cs_category_id := c;
     category_name := category_label coll c;
     suggested_limit := smooth_limit pol avg (map snd history);
     average_spending := avg;
     trend_pct := change;
     trend_direction := direction_of change;
     cs_months_with_data := length history;
     monthly_history := history |}.

(** Modelled from the spec: steps 2 to 8 on the fetched records. *)
Definition heuristic_suggestion (pol : Policy) (coll : Collaborators)
    (m : YearMonth) (lookbackMonths : Z) (recs : list ExpenseRecord)
  : BudgetSuggestion :=
  let totals := monthly_totals_of recs in
  let total := suggested_total_of pol totals in
  {| month := m;
     suggested_total := total;
     breakdown := breakdown_of total;
     confidence := confidence_of pol totals lookbackMonths (length recs);
     spending_trend := trend_of pol totals;
     category_suggestions :=
       map (category_suggestion pol coll recs) (categories_of [] recs);
     data_range := data_range_of totals lookbackMonths;
     monthly_totals := Some totals;
     method := heuristic_method totals;
     tips := None;
     warnings := None |}.

(** Modelled from the spec: step 9, the method reported with generated
    tips: the name of the provider, unless the policy keeps the
    [heuristic_default] of step 5. *)
Definition method_with_tips (pol : Policy) (coll : Collaborators)
    (heuristic_method : Method) : Method :=
  match heuristic_method with
  | heuristic_default =>
      if default_method_kept pol then heuristic_default
      else provider_method (provider coll)
  | _ => provider_method (provider coll)
  end.

(** Modelled from the spec: step 9, tips from the LLM provider when a key is supplied and the
    provider answers; otherwise the suggestion is left as it is. *)
Definition attach_tips (pol : Policy) (coll : Collaborators) (opts : Options)
    (s : BudgetSuggestion) : BudgetSuggestion :=
  match llmApiKey opts with
  | Some key =>
      match generateTips coll (breakdown s) (persona opts) key with
      | Some t =>
          {| month := month s;
             suggested_total := suggested_total s;
             breakdown := breakdown s;
             confidence := confidence s;
             spending_trend := spending_trend s;
             category_suggestions := category_suggestions s;
             data_range := data_range s;
             monthly_totals := monthly_totals s;
             method := method_with_tips pol coll (method s);
             tips := Some (tip_lines t);
             warnings := tip_warnings t |}
      | None => s
      end
  | None => s
  end.

Definition target_month (coll : Collaborators) (month : option YearMonth)
  : YearMonth :=
  default (current_month coll) month.

(** Modelled from the spec: step 1, the storage query for the records of
    [[month - lookbackMonths, month)]. *)
Definition fetch_window (coll : Collaborators) (userId : Z)
    (month : option YearMonth) (lookbackMonths : Z)
  : option (list ExpenseRecord) :=
  let m := target_month coll month in
  fetchExpenses coll userId (first_day (ym_sub m lookbackMonths)) (first_day m).

(** Modelled from the spec: [computeSuggestion] of section 4.1, the
    server-side engine whose code is not in the sources.  An omitted
    month is the current one; a lookback that is not positive or a
    month that is not a calendar month is an [InvalidRangeError]; a
    failure of storage is a [RetrievalError]. *)
Definition computeSuggestion (pol : Policy) (coll : Collaborators)
    (userId : Z) (month : option YearMonth) (lookbackMonths : Z)
    (opts : Options) : Error + BudgetSuggestion :=
  let m := target_month coll month in
  if (lookbackMonths <=? 0)%Z || negb (valid_month m) then inl InvalidRangeError
  else
    match fetch_window coll userId month lookbackMonths with
    | None => inl RetrievalError
    | Some recs =>
        inr (attach_tips pol coll opts
               (heuristic_suggestion pol coll m lookbackMonths recs))
    end.

(** The numeric part of a response: everything but [method], [tips] and
    [warnings]. *)
Definition numeric_fields (s : BudgetSuggestion) :=
  (month s, suggested_total s, breakdown s, confidence s, spending_trend s,
   category_suggestions s, data_range s, monthly_totals s).

End Engine.

(** ** More of the JavaScript runtime: comparison and arithmetic of numbers

    A zero is taken as [+0] where its sign would decide the sign of an
    infinity; the modelled pages divide by numbers that are at least 1 or
    greater than 0 only. *)

Module JSArith.

(** [a === b] on numbers *)
Definition strict_eq (a b : JSNumber) : bool :=
  match a, b with
  | JFinite p, JFinite q => Qeq_bool p q
  | JInfinity s, JInfinity t => Bool.eqb s t
  | _, _ => false
  end.

(** [a > b] *)
Definition gt (a b : JSNumber) : bool :=
  match a, b with
  | JNaN, _ | _, JNaN => false
  | JInfinity s, JInfinity t => negb s && t
  | JInfinity s, JFinite _ => negb s
  | JFinite _, JInfinity t => t
  | JFinite p, JFinite q => negb (Qle_bool p q)
  end.

Definition is_nan (a : JSNumber) : bool :=
  match a with
  | JNaN => true
  | _ => false
  end.

Definition max2 (a b : JSNumber) : JSNumber :=
  if is_nan a || is_nan b then JNaN else if gt b a then b else a.

Definition min2 (a b : JSNumber) : JSNumber :=
  if is_nan a || is_nan b then JNaN else if gt a b then b else a.

(** [Math.max(...args)] and [Math.min(...args)] *)
Definition Math_max (args : list JSNumber) : JSNumber :=
  fold_left max2 args (JInfinity true).

Definition Math_min (args : list JSNumber) : JSNumber :=
  fold_left min2 args (JInfinity false).

Definition negative (q : Q) : bool := negb (Qle_bool 0 q).

(** [a * b] *)
Definition mul (a b : JSNumber) : JSNumber :=
  match a, b with
  | JNaN, _ | _, JNaN => JNaN
  | JInfinity s, JInfinity t => JInfinity (xorb s t)
  | JInfinity s, JFinite q | JFinite q, JInfinity s =>
      if Qis_zero q then JNaN else JInfinity (xorb s (negative q))
  | JFinite p, JFinite q => to_number (p * q)
  end.

(** [a / b] *)
Definition div (a b : JSNumber) : JSNumber :=
  match a, b with
  | JNaN, _ | _, JNaN => JNaN
  | JInfinity _, JInfinity _ => JNaN
  | JInfinity s, JFinite q => JInfinity (xorb s (negative q))
  | JFinite _, JInfinity _ => JFinite 0
  | JFinite p, JFinite q =>
      if Qis_zero q then
        if Qis_zero p then JNaN else JInfinity (negative p)
      else to_number (p / q)
  end.

End JSArith.

(** ** The other functions of [api/reminders.ts] *)

Module RemindersApi.

Inductive Json : Type :=
| JsonString (s : string)
| JsonNumber (x : JSNumber).

(** A call of [api] whose body, when it has one, is an object of strings
    and numbers. *)
Record Call : Type := {
  c_path : string;
  c_method : option string;
  c_body : option (gmap string Json)
}.

Inductive Channel : Type := email | whatsapp.

Definition channel_name (c : Channel) : string :=
  match c with
  | email => "email"
  | whatsapp => "whatsapp"
  end.

Record ReminderCreate : Type := {
  rc_message : string;
  rc_send_at : string;
  rc_channel : option Channel
}.

(** [ReminderUpdate = Partial<ReminderCreate>] *)
Record ReminderUpdate : Type := {
  ru_message : option string;
  ru_send_at : option string;
  ru_channel : option Channel
}.

Definition put (k : string) (v : option Json) (o : gmap string Json)
  : gmap string Json :=
  match v with
  | Some j => <[ k := j ]> o
  | None => o
  end.

(** The payload objects; a property that is [undefined] is left out. *)
Definition create_object (p : ReminderCreate) : gmap string Json :=
  put "channel" (JsonString ∘ channel_name <$> rc_channel p)
    {[ "message" := JsonString (rc_message p);
       "send_at" := JsonString (rc_send_at p) ]}.

Definition update_object (p : ReminderUpdate) : gmap string Json :=
  put "channel" (JsonString ∘ channel_name <$> ru_channel p)
    (put "send_at" (JsonString <$> ru_send_at p)
       (put "message" (JsonString <$> ru_message p) ∅)).

Definition listReminders : Call :=
  {| c_path := "/reminders"; c_method := None; c_body := None |}.

Definition createReminder (payload : ReminderCreate) : Call :=
  {| c_path := "/reminders"; c_method := Some "POST";
     c_body := Some (create_object payload) |}.

Definition updateReminder (h : Host) (id : JSNumber) (payload : ReminderUpdate) : Call :=
  {| c_path := "/reminders/" ++ NumberToString h id; c_method := Some "PATCH";
     c_body := Some (update_object payload) |}.

Definition deleteReminder (h : Host) (id : JSNumber) : Call :=
  {| c_path := "/reminders/" ++ NumberToString h id; c_method := Some "DELETE";
     c_body := None |}.

Definition runDue : Call :=
  {| c_path := "/reminders/run"; c_method := Some "POST"; c_body := None |}.

Inductive AutopayStatus : Type := SUCCESS | FAILED.

Definition status_name (s : AutopayStatus) : string :=
  match s with
  | SUCCESS => "SUCCESS"
  | FAILED => "FAILED"
  end.

Definition reportAutopayResult (h : Host) (billId : JSNumber) (status : AutopayStatus)
  : Call :=
  {| c_path := "/reminders/bills/" ++ NumberToString h billId ++ "/autopay-result";
     c_method := Some "POST";
     c_body := Some {[ "status" := JsonString (status_name status) ]} |}.

End RemindersApi.

(** ** The handlers of the Reminders page *)

Module RemindersPage.

Import RemindersApi.

(** What a [catch] clause receives: an [Error] with its message, or some
    other value. *)
Inductive Thrown : Type :=
| ErrorObject (message : string)
| OtherValue.

(** How an awaited request ends. *)
Inductive Outcome (A : Type) : Type :=
| Resolved (a : A)
| Rejected (e : Thrown).
Arguments Resolved {A} a.
Arguments Rejected {A} e.

Definition getErrorMessage (error : Thrown) (fallback : string) : string :=
  match error with
  | ErrorObject m => m
  | OtherValue => fallback
  end.

Record Toast : Type := {
  title : string;
  description : option string
}.

Record Reminder : Type := {
  id : JSNumber;
  message : string;
  send_at : string;
  sent : bool;
  channel : Channel
}.

Record Bill : Type := {
  bill_id : JSNumber;
  bill_name : string
}.

(** The state of the component. *)
Record Page : Type := {
  items : list Reminder;
  loading : bool;
  error : option string;
  open : bool;
  form_message : string;
  sendAt : string;
  form_channel : Channel;
  saving : bool;
  bills : list Bill;
  selectedBillId : string;
  offsetsInput : string
}.

Definition setItems (v : list Reminder) (st : Page) : Page :=
  {| items := v; loading := loading st; error := error st; open := open st;
     form_message := form_message st; sendAt := sendAt st;
     form_channel := form_channel st; saving := saving st; bills := bills st;
     selectedBillId := selectedBillId st; offsetsInput := offsetsInput st |}.

Definition setLoading (v : bool) (st : Page) : Page :=
  {| items := items st; loading := v; error := error st; open := open st;
     form_message := form_message st; sendAt := sendAt st;
     form_channel := form_channel st; saving := saving st; bills := bills st;
     selectedBillId := selectedBillId st; offsetsInput := offsetsInput st |}.

Definition setError (v : option string) (st : Page) : Page :=
  {| items := items st; loading := loading st; error := v; open := open st;
     form_message := form_message st; sendAt := sendAt st;
     form_channel := form_channel st; saving := saving st; bills := bills st;
     selectedBillId := selectedBillId st; offsetsInput := offsetsInput st |}.

Definition setSaving (v : bool) (st : Page) : Page :=
  {| items := items st; loading := loading st; error := error st; open := open st;
     form_message := form_message st; sendAt := sendAt st;
     form_channel := form_channel st; saving := v; bills := bills st;
     selectedBillId := selectedBillId st; offsetsInput := offsetsInput st |}.

(** [setOpen(false); setMessage(''); setChannel('email'); setSendAt(now)] *)
Definition resetForm (now : string) (st : Page) : Page :=
  {| items := items st; loading := loading st; error := error st; open := false;
     form_message := ""; sendAt := now;
     form_channel := email; saving := saving st; bills := bills st;
     selectedBillId := selectedBillId st; offsetsInput := offsetsInput st |}.

Definition setBills (v : list Bill) (sel : string) (st : Page) : Page :=
  {| items := items st; loading := loading st; error := error st; open := open st;
     form_message := form_message st; sendAt := sendAt st;
     form_channel := form_channel st; saving := saving st; bills := v;
     selectedBillId := sel; offsetsInput := offsetsInput st |}.

(** [message || 'Please try again.'] *)
Definition or_try_again (m : string) : string := or_else (Some m) "Please try again.".

(** [refresh]: the list is replaced when the request succeeds. *)
Definition refresh (out : Outcome (list Reminder)) (st : Page) : Page * list Toast :=
  let st := setError None (setLoading true st) in
  match out with
  | Resolved data => (setLoading false (setItems data st), [])
  | Rejected e =>
      let m := getErrorMessage e "Failed to load reminders" in
      (setLoading false (setError (Some m) st),
       [ {| title := "Failed to load reminders";
            description := Some (or_try_again m) |} ])
  end.

(** The updater [loadBills] gives to [setSelectedBillId]. *)
Definition select_bill (h : Host) (prev : string) (data : list Bill) : string :=
  if string_truthy prev then prev
  else match data with
       | b :: _ => NumberToString h (bill_id b)
       | [] => ""
       end.

Definition loadBills (h : Host) (out : Outcome (list Bill)) (st : Page)
  : Page * list Toast :=
  match out with
  | Resolved data => (setBills data (select_bill h (selectedBillId st) data) st, [])
  | Rejected _ =>
      (st, [ {| title := "Failed to load bills";
                description := Some "Please try again." |} ])
  end.

(** [new Date(sendAt).toISOString()] is the host's: [None] for an invalid
    date, where it throws a RangeError with the host's message. *)
Record DateHost : Type := {
  toISOString : string -> option string;
  invalid_date_message : string
}.

(** [onCreate]: the state, the toasts and the requests made, given how the
    two requests end and the time [now] the form is reset to. *)
Definition onCreate (d : DateHost) (created : Outcome unit)
    (listed : Outcome (list Reminder)) (now : string) (st : Page)
  : Page * list Toast * list Call :=
  if negb (string_truthy (trim (form_message st))) then (st, [], [])
  else
    let st := setSaving true st in
    let failed (e : Thrown) (calls : list Call) :=
      let m := getErrorMessage e "Failed to create reminder" in
      (setSaving false (setError (Some m) st),
       [ {| title := "Failed to create reminder";
            description := Some (or_try_again m) |} ],
       calls) in
    match toISOString d (sendAt st) with
    | None => failed (ErrorObject (invalid_date_message d)) []
    | Some iso =>
        let call :=
          createReminder {| rc_message := trim (form_message st);
                            rc_send_at := iso;
                            rc_channel := Some (form_channel st) |} in
        match created with
        | Rejected e => failed e [call]
        | Resolved _ =>
            let '(st, toasts) := refresh listed st in
            (setSaving false (resetForm now st),
             (toasts ++ [ {| title := "Reminder created"; description := None |} ])%list,
             [call; listReminders])
        end
    end.

(** [onDelete]: a reminder goes from the list once the server has deleted
    it. *)
Definition onDelete (h : Host) (target : JSNumber) (deleted : Outcome unit) (st : Page)
  : Page * list Toast * list Call :=
  let call := deleteReminder h target in
  let st := setSaving true st in
  match deleted with
  | Resolved _ =>
      (setSaving false
         (setItems (List.filter (fun x => negb (JSArith.strict_eq (id x) target))
                      (items st)) st),
       [ {| title := "Reminder deleted"; description := None |} ],
       [call])
  | Rejected e =>
      let m := getErrorMessage e "Failed to delete reminder" in
      (setSaving false (setError (Some m) st),
       [ {| title := "Failed to delete reminder";
            description := Some (or_try_again m) |} ],
       [call])
  end.

(** A call without a body, in the record of the calls with numeric
    bodies. *)
Definition plain (c : Call) : ApiCall :=
  {| path := c_path c; http_method := c_method c; headers := None; body := None |}.

(** [onScheduleBillReminders]: the state, the toasts and the requests
    made, given how the two requests end; [scheduled] holds the [created]
    of the response.  Without a bill there is a toast and no request;
    the list is loaded again once the reminders are scheduled. *)
Definition onScheduleBillReminders (h : Host) (scheduled : Outcome JSNumber)
    (listed : Outcome (list Reminder)) (st : Page)
  : Page * list Toast * list ApiCall :=
  match Reminders.onScheduleBillReminders h (selectedBillId st) (offsetsInput st) with
  | None => (st, [ {| title := "Select a bill first"; description := None |} ], [])
  | Some call =>
      let st := setSaving true st in
      match scheduled with
      | Resolved created =>
          let '(st, toasts) := refresh listed st in
          (setSaving false st,
           {| title := "Bill reminders scheduled";
              description := Some (NumberToString h created ++ " created.") |}
           :: toasts,
           [call; plain listReminders])
      | Rejected e =>
          (setSaving false st,
           [ {| title := "Failed to schedule bill reminders";
                description := Some (getErrorMessage e "Please try again.") |} ],
           [call])
      end
  end.

(** [onAutopayResult]: its call of [reportAutopayResult], none without a
    bill. *)
Definition onAutopayResult (h : Host) (status : AutopayStatus) (st : Page)
  : option Call :=
  if negb (string_truthy (selectedBillId st)) then None
  else Some (reportAutopayResult h (StringToNumber (selectedBillId st)) status).

End RemindersPage.

(** ** The Analytics page *)

Module AnalyticsPage.

(** The argument [load] gives to [getBudgetSuggestion]:
    [{month, persona, geminiApiKey: geminiKey.trim() || undefined}]. *)
Definition load_params (month persona geminiKey : string) : InsightsAnalytics.Params :=
  {| InsightsAnalytics.month := Some month;
     InsightsAnalytics.geminiApiKey :=
       if string_truthy (trim geminiKey) then Some (trim geminiKey) else None;
     InsightsAnalytics.persona := Some persona |}.

Definition load (month persona geminiKey : string) : ApiCall :=
  InsightsAnalytics.getBudgetSuggestion (Some (load_params month persona geminiKey)).

End AnalyticsPage.

(** ** The Budgets page *)

Module BudgetsPage.

Definition confidenceColor (label : string) : string :=
  if String.eqb label "very_high" then "text-success"
  else if String.eqb label "high" then "text-success"
  else if String.eqb label "medium" then "text-warning"
  else if String.eqb label "low" then "text-destructive"
  else "text-muted-foreground".

Definition confidenceBadgeVariant (label : string) : string :=
  if String.eqb label "very_high" || String.eqb label "high" then "default"
  else if String.eqb label "medium" then "secondary"
  else "destructive".

(** [trendIcon]: the icon and its class. *)
Definition trendIcon (direction : string) : string * string :=
  if String.eqb direction "increasing" then ("TrendingUp", "w-3 h-3 text-destructive")
  else if String.eqb direction "decreasing" then ("TrendingDown", "w-3 h-3 text-success")
  else ("Minus", "w-3 h-3 text-muted-foreground").

Definition trendColor (direction : string) : string :=
  if String.eqb direction "increasing" then "text-destructive"
  else if String.eqb direction "decreasing" then "text-success"
  else "text-muted-foreground".

Definition CATEGORY_COLORS : list string :=
  ["bg-primary"; "bg-success"; "bg-destructive"; "bg-accent"; "bg-warning";
   "bg-secondary"].

(** [CATEGORY_COLORS[index % CATEGORY_COLORS.length]]; [None] is
    [undefined]. *)
Definition colorClass (index : nat) : option string :=
  CATEGORY_COLORS !! (index mod length CATEGORY_COLORS)%nat.

Definition pctOfTotal (suggested_limit suggestedTotal : JSNumber) : JSNumber :=
  if JSArith.gt suggestedTotal (JFinite 0)
  then JSArith.mul (JSArith.div suggested_limit suggestedTotal) (JFinite 100)
  else JFinite 0.

(** The width of the bar of a category, in percent. *)
Definition category_width (suggested_limit suggestedTotal : JSNumber) : JSNumber :=
  JSArith.Math_min [pctOfTotal suggested_limit suggestedTotal; JFinite 100].

(** The badge "Spending rising fast". *)
Definition rising_fast (trend_direction : string) (trend_pct : JSNumber) : bool :=
  String.eqb trend_direction "increasing" && JSArith.gt trend_pct (JFinite 10).

(** [MonthlyHistoryBars]; [entries] are the entries of [totals] in the
    order the sort by [localeCompare] leaves them in. *)
Definition maxVal (entries : list (string * JSNumber)) (suggestedTotal : JSNumber)
  : JSNumber :=
  JSArith.Math_max (suggestedTotal :: map snd entries ++ [JFinite 1])%list.

Record Bar : Type := {
  bar_month : string;
  bar_amount : JSNumber;
  isAboveSuggested : bool;
  bar_width : JSNumber
}.

Definition history_bar (top suggestedTotal : JSNumber) (entry : string * JSNumber) : Bar :=
  let '(ym, amount) := entry in
  let pct := JSArith.mul (JSArith.div amount top) (JFinite 100) in
  {| bar_month := ym;
     bar_amount := amount;
     isAboveSuggested :=
       JSArith.gt amount suggestedTotal && JSArith.gt suggestedTotal (JFinite 0);
     bar_width := JSArith.Math_max [JFinite 2; JSArith.Math_min [JFinite 100; pct]] |}.

Definition MonthlyHistoryBars (entries : list (string * JSNumber))
    (suggestedTotal : JSNumber) : list Bar :=
  map (history_bar (maxVal entries suggestedTotal) suggestedTotal) entries.

(** The request of [fetchSuggestion]: [getBudgetSuggestion(month, lookback)]. *)
Definition fetchSuggestion (h : Host) (month : string) (lookback : JSNumber) : ApiCall :=
  InsightsBudgets.getBudgetSuggestion h (Some month) (Some lookback).

End BudgetsPage.

(** ** The route guard [ProtectedRoute] *)

Module ProtectedRoute.

Inductive Status : Type := checking | authed | guest.

(** What [checkAuth] does to the token store of [lib/auth.ts], to the API
    and to the component, in order. *)
Inductive Effect : Type :=
| CallMe
| CallRefresh (refreshToken : string)
| SetCurrency (c : string)
| SetToken (t : string)
| ClearToken
| ClearRefreshToken
| SetStatus (s : Status).

(** [me()] and, after it, [setCurrency(profile.preferred_currency || 'INR')];
    a failure is swallowed.  [profile] is [None] when [me()] fails, else
    the [preferred_currency] of the profile. *)
Definition fetch_profile (profile : option (option string)) : list Effect :=
  CallMe ::
  match profile with
  | Some preferred => [SetCurrency (or_else preferred "INR")]
  | None => []
  end.

(** A token that is there and not empty. *)
Definition present (v : option string) : option string :=
  match v with
  | Some s => if string_truthy s then Some s else None
  | None => None
  end.

Definition set_status (active : bool) (s : Status) : list Effect :=
  if active then [SetStatus s] else [].

(** [checkAuth]: [access] and [refreshToken] are what [getToken()] and
    [getRefreshToken()] return, [refreshed] the access token [refresh]
    answers with ([None]: it failed), [active] whether the component is
    still mounted when the status is set. *)
Definition checkAuth (access refreshToken : option string)
    (profile : option (option string)) (refreshed : option string)
    (active : bool) : list Effect :=
  match present access with
  | Some _ => fetch_profile profile ++ set_status active authed
  | None =>
      match present refreshToken with
      | None => set_status active guest
      | Some rt =>
          CallRefresh rt ::
          match refreshed with
          | Some token =>
              SetToken token :: fetch_profile profile ++ set_status active authed
          | None => ClearToken :: ClearRefreshToken :: set_status active guest
          end
      end
  end%list.

(** The status the component is left in. *)
Definition final_status (effects : list Effect) : Status :=
  fold_left (fun s e => match e with SetStatus s' => s' | _ => s end) effects checking.

End ProtectedRoute.

(** A host for the examples: fractions print as [?], money as the code in
    brackets. *)
Definition example_host : Host :=
  {| shortest_decimal := fun _ => "?";
     intl_currency_format := fun c _ => "[" ++ c ++ "]" |}.

(** Three expenses, 1000 in January and 1200 in February 2026. *)
Definition example_records : list Engine.ExpenseRecord :=
  [ {| Engine.amount := 400; Engine.currency := "USD"; Engine.category_id := Some 1%Z;
       Engine.spent_at := {| Engine.d_year := 2026; Engine.d_month := 1; Engine.d_day := 10 |};
       Engine.expense_type := Engine.EXPENSE |};
    {| Engine.amount := 1200; Engine.currency := "USD"; Engine.category_id := Some 2%Z;
       Engine.spent_at := {| Engine.d_year := 2026; Engine.d_month := 2; Engine.d_day := 5 |};
       Engine.expense_type := Engine.EXPENSE |};
    {| Engine.amount := 600; Engine.currency := "USD"; Engine.category_id := None;
       Engine.spent_at := {| Engine.d_year := 2026; Engine.d_month := 1; Engine.d_day := 20 |};
       Engine.expense_type := Engine.EXPENSE |} ].

Definition example_policy : Engine.Policy :=
  {| Engine.default_total := 500;
     Engine.confidence_score := fun n requested _ =>
       Qmake (Z.min (Z.of_nat n) requested) (Z.to_pos requested);
     Engine.low_variance := fun _ => false;
     Engine.undefined_change_pct := 0;
     Engine.smooth_limit := fun avg _ => avg;
     Engine.default_method_kept := true |}.

(** Storage holding [recs] whatever the range asked for, and a Gemini
    provider that answers when [reachable]. *)
Definition example_collaborators (recs : list Engine.ExpenseRecord)
    (reachable : bool) : Engine.Collaborators :=
  {| Engine.fetchExpenses := fun _ _ _ => Some recs;
     Engine.provider := Engine.Gemini;
     Engine.generateTips := fun _ _ _ =>
       if reachable
       then Some {| Engine.tip_lines := ["Spend less"]; Engine.tip_warnings := None |}
       else None;
     Engine.category_label := fun _ => "Other";
     Engine.current_month := {| Engine.ym_year := 2026; Engine.ym_month := 2 |} |}.

Definition feb_2026 : Engine.YearMonth :=
  {| Engine.ym_year := 2026; Engine.ym_month := 2 |}.
Definition jan_2026 : Engine.YearMonth :=
  {| Engine.ym_year := 2026; Engine.ym_month := 1 |}.

Definition with_key : Engine.Options :=
  {| Engine.persona := Some "Balanced coach"; Engine.llmApiKey := Some "abc123" |}.

(** Text of ASCII characters only.  On such text [trim] and
    [toUpperCase] are the JavaScript methods; beyond it JavaScript also
    trims other white space (U+00A0 among it) and maps more letters. *)
Definition ascii_text (s : string) : bool :=
  forallb_string (fun c => (code c <? 128)%N) s.

(** An optional string that is there and not empty, an optional number
    that is there and neither 0 nor NaN: the values JavaScript takes for
    true. *)
Definition nonempty (v : option string) : option string :=
  match v with
  | Some s => if string_truthy s then Some s else None
  | None => None
  end.

Definition nonzero (v : option JSNumber) : option JSNumber :=
  match v with
  | Some x => if number_truthy x then Some x else None
  | None => None
  end.


(** The first character is white space. *)
Definition starts_with_space (s : string) : bool :=
  match s with
  | String c _ => is_white_space c
  | EmptyString => false
  end.

(** The last character is white space. *)
Definition ends_with_space (s : string) : bool :=
  starts_with_space (rev_string "" s).

(** A Reminders page with two reminders and a form filled in. *)
Definition example_page : RemindersPage.Page :=
  {| RemindersPage.items :=
       [ {| RemindersPage.id := JFinite 1; RemindersPage.message := "Rent";
            RemindersPage.send_at := "2026-03-01T09:00:00.000Z";
            RemindersPage.sent := false; RemindersPage.channel := RemindersApi.email |};
         {| RemindersPage.id := JFinite 2; RemindersPage.message := "Card";
            RemindersPage.send_at := "2026-03-05T09:00:00.000Z";
            RemindersPage.sent := true; RemindersPage.channel := RemindersApi.whatsapp |} ];
     RemindersPage.loading := false;
     RemindersPage.error := None;
     RemindersPage.open := true;
     RemindersPage.form_message := "  Pay credit card ";
     RemindersPage.sendAt := "2026-03-10T09:00";
     RemindersPage.form_channel := RemindersApi.whatsapp;
     RemindersPage.saving := false;
     RemindersPage.bills := [];
     RemindersPage.selectedBillId := "";
     RemindersPage.offsetsInput := "" |}.

(** A host that reads every date but the empty one. *)
Definition example_dates : RemindersPage.DateHost :=
  {| RemindersPage.toISOString := fun s =>
       if string_truthy s then Some (s ++ ":00.000Z") else None;
     RemindersPage.invalid_date_message := "Invalid time value" |}.

(** The same page with a message and no time. *)
Definition example_page_without_time : RemindersPage.Page :=
  {| RemindersPage.items := RemindersPage.items example_page;
     RemindersPage.loading := false;
     RemindersPage.error := None;
     RemindersPage.open := true;
     RemindersPage.form_message := "Rent";
     RemindersPage.sendAt := "";
     RemindersPage.form_channel := RemindersApi.email;
     RemindersPage.saving := false;
     RemindersPage.bills := [];
     RemindersPage.selectedBillId := "";
     RemindersPage.offsetsInput := "" |}.

(** A value a JavaScript number can have: NaN, an infinity, or a
    rational that is a double, one that rounding leaves as it is. *)
Definition is_Number (x : JSNumber) : bool :=
  match x with
  | JFinite q =>
      match to_number q with
      | JFinite r => Qeq_bool r q
      | _ => false
      end
  | _ => true
  end.


(** The number a decimal numeral denotes: digits, a point, digits. *)
Definition unsigned_decimal_value (s : string) : option Q :=
  let '(int_part, rest) := span is_digit s in
  match int_part, rest with
  | String _ _, String "." (String c frac) =>
      if forallb_string is_digit (String c frac) then
        Some (Qmake (digits_value 10 0 (int_part ++ String c frac))
                    (Z.to_pos (10 ^ Z.of_nat (String.length (String c frac)))))
      else None
  | _, _ => None
  end.

(** The same with a minus sign in front, or none. *)
Definition decimal_value (s : string) : option Q :=
  match s with
  | String c r =>
      if Ascii.eqb c "-" then Qopp <$> unsigned_decimal_value r
      else unsigned_decimal_value s
  | EmptyString => None
  end.

(** Up to here every whole number is a Number exactly. *)
Definition safe_bound : Z := 2 ^ 53.

(** How often a character occurs in a string. *)
Fixpoint count_char (c : ascii) (s : string) : nat :=
  match s with
  | EmptyString => 0
  | String c' s' => (if Ascii.eqb c' c then 1 else 0) + count_char c s'
  end.

(** The characters that structure a URL: none of them survives either
    encoding. *)
Definition reserved (c : ascii) : bool := mem_char c "?&=#/ ".

(** The effects that set the status, and those that set the currency. *)
Definition is_set_status (e : ProtectedRoute.Effect) : bool :=
  match e with
  | ProtectedRoute.SetStatus _ => true
  | _ => false
  end.

Definition is_set_currency (e : ProtectedRoute.Effect) : bool :=
  match e with
  | ProtectedRoute.SetCurrency _ => true
  | _ => false
  end.

(** The outcome of the check: signed in with an access token, or with a
    refresh token that the server accepts. *)
Definition expected_status (access refreshToken : option string)
    (refreshed : option string) : ProtectedRoute.Status :=
  match nonempty access, nonempty refreshToken, refreshed with
  | Some _, _, _ => ProtectedRoute.authed
  | None, Some _, Some _ => ProtectedRoute.authed
  | _, _, _ => ProtectedRoute.guest
  end.

(** [two_digits d] is two digits that spell [d]. *)
Definition two_digits_ok (d : Z) : bool :=
  match two_digits d with
  | String c1 (String c2 EmptyString) =>
      is_digit c1 && is_digit c2 && (10 * digit_value c1 + digit_value c2 =? d)%Z
  | _ => false
  end.

(** The cents [toFixed(2)] prints for a number of magnitude [a]. *)
Definition cents (a : Q) : Z := Qfloor (a * 100 + (1 # 2))%Q.

(** A digit or a hyphen. *)
Definition month_char (c : ascii) : bool := is_digit c || Ascii.eqb c "-".

(** The option holds a string. *)
Definition is_Some_string (v : option string) : bool :=
  match v with
  | Some _ => true
  | None => false
  end.

(** ** The model at work *)

Example StringToNumber_plain : StringToNumber " 7 " = JFinite 7.
Proof. vm_compute. reflexivity. Qed.
Example StringToNumber_decimal : StringToNumber "-1.5e1" = JFinite (-15).
Proof. vm_compute. reflexivity. Qed.
Example StringToNumber_word : StringToNumber "abc" = JNaN.
Proof. vm_compute. reflexivity. Qed.
Example StringToNumber_overflow : StringToNumber "1e400" = JInfinity false.
Proof. vm_compute. reflexivity. Qed.
Example StringToNumber_hex : StringToNumber "0x1F" = JFinite 31.
Proof. vm_compute. reflexivity. Qed.
Example StringToNumber_two_words : StringToNumber "7 3" = JNaN.
Proof. vm_compute. reflexivity. Qed.
Example split_commas : split "," "7,,3" = ["7"; ""; "3"].
Proof. vm_compute. reflexivity. Qed.

Example ex_totals :
  Engine.monthly_totals_of example_records = [(jan_2026, 1000%Q); (feb_2026, 1200%Q)].
Proof. vm_compute. reflexivity. Qed.

Example ex_schedule :
  Reminders.onScheduleBillReminders example_host "1" "7,3,1"
  = Some {| path := "/reminders/bills/1/schedule"; http_method := Some "POST";
            headers := None;
            body := Some {[ "offsets_days" := [JFinite 7; JFinite 3; JFinite 1] ]} |}.
Proof. vm_compute. reflexivity. Qed.
Example ex_money1 :
  Currency.formatMoney example_host None (Some (JFinite (25 # 2))) (Some "usdx")
  = Normal "USDX 12.50".
Proof. vm_compute. reflexivity. Qed.
Example ex_money2 :
  Currency.formatMoney example_host (Some "inr") (Some (JFinite (- (1 # 1024)))) None
  = Normal "[INR]".
Proof. vm_compute. reflexivity. Qed.
Example ex_money3 :
  Currency.formatMoney example_host (Some "rs") (Some (JFinite (- (1 # 1024)))) None
  = Normal "RS -0.00".
Proof. vm_compute. reflexivity. Qed.
Example ex_budgets :
  path (InsightsBudgets.getBudgetSuggestion example_host (Some "2026-02") (Some (JFinite 6)))
  = "/insights/budget-suggestion?month=2026-02&months=6".
Proof. vm_compute. reflexivity. Qed.
Example ex_analytics :
  path (InsightsAnalytics.getBudgetSuggestion
          (Some {| InsightsAnalytics.month := Some "2026 02";
                   InsightsAnalytics.geminiApiKey := None;
                   InsightsAnalytics.persona := Some "Balanced coach" |}))
  = "/insights/budget-suggestion?month=2026%2002".
Proof. vm_compute. reflexivity. Qed.

(** * Properties of the budget-suggestion engine *)

Section EngineFacts.

Import Engine.
Local Open Scope Q_scope.

Variable pol : Policy.
Variable coll : Collaborators.

Lemma breakdown_of_sum (t : Q) :
  needs (breakdown_of t) + wants (breakdown_of t) + savings (breakdown_of t) == t.
Proof. unfold breakdown_of; simpl. field. Qed.

Lemma attach_tips_numeric (opts : Options) (s : BudgetSuggestion) :
  numeric_fields (attach_tips pol coll opts s) = numeric_fields s.
Proof.
  unfold attach_tips.
  destruct (llmApiKey opts) as [key|]; [|reflexivity].
  destruct (generateTips coll (breakdown s) (persona opts) key); reflexivity.
Qed.

(** A response comes from a positive lookback, a well-formed month and
    an answer of storage. *)
Lemma computeSuggestion_inr (userId : Z) (m : option YearMonth)
    (lookbackMonths : Z) (opts : Options) (r : BudgetSuggestion) :
  computeSuggestion pol coll userId m lookbackMonths opts = inr r ->
  exists recs,
    fetch_window coll userId m lookbackMonths = Some recs
    /\ (0 < lookbackMonths)%Z
    /\ valid_month (target_month coll m) = true
    /\ r = attach_tips pol coll opts
             (heuristic_suggestion pol coll (target_month coll m)
                lookbackMonths recs).
Proof.
  unfold computeSuggestion.
  destruct (Z.leb_spec lookbackMonths 0) as [Hle|Hlt]; simpl; [discriminate|].
  destruct (valid_month _); simpl; [|discriminate].
  destruct (fetch_window _ _ _ _) as [recs|]; [|discriminate].
  intros [= <-]. exists recs. auto.
Qed.

(** Valid parameters and an answer of storage give a response. *)
Lemma computeSuggestion_returns (userId : Z) (m : option YearMonth)
    (lookbackMonths : Z) (opts : Options) (recs : list ExpenseRecord) :
  (0 < lookbackMonths)%Z ->
  valid_month (target_month coll m) = true ->
  fetch_window coll userId m lookbackMonths = Some recs ->
  computeSuggestion pol coll userId m lookbackMonths opts
  = inr (attach_tips pol coll opts
           (heuristic_suggestion pol coll (target_month coll m)
              lookbackMonths recs)).
Proof.
  intros Hlb Hm Hfetch. unfold computeSuggestion.
  destruct (Z.leb_spec lookbackMonths 0) as [Hle|_]; [lia|].
  rewrite Hm, Hfetch. reflexivity.
Qed.

Lemma suggested_total_attach (opts : Options) (s : BudgetSuggestion) :
  suggested_total (attach_tips pol coll opts s) = suggested_total s.
Proof. pose proof (attach_tips_numeric opts s) as H. unfold numeric_fields in H. congruence. Qed.

Lemma breakdown_attach (opts : Options) (s : BudgetSuggestion) :
  breakdown (attach_tips pol coll opts s) = breakdown s.
Proof. pose proof (attach_tips_numeric opts s) as H. unfold numeric_fields in H. congruence. Qed.


(** Grouping by month keeps the money: the monthly totals add up to the
    sum of the amounts. *)
Lemma sum_values_add_month (k : YearMonth) (v : Q) (l : list (YearMonth * Q)) :
  sum_values (add_month k v l) == v + sum_values l.
Proof.
  induction l as [|[k' v'] l IH]; simpl.
  - unfold sum_values; simpl. ring.
  - destruct (ym_ltb k k').
    + unfold sum_values; simpl. ring.
    + destruct (ym_eqb k k').
      * unfold sum_values; simpl. ring.
      * unfold sum_values in *; simpl. rewrite IH. ring.
Qed.

Lemma sum_monthly_totals (recs : list ExpenseRecord) :
  sum_values (monthly_totals_of recs) == fold_right Qplus 0 (map amount recs).
Proof.
  induction recs as [|r recs IH]; simpl.
  - reflexivity.
  - rewrite sum_values_add_month, IH. reflexivity.
Qed.

Lemma add_month_not_nil (k : YearMonth) (v : Q) (l : list (YearMonth * Q)) :
  add_month k v l <> [].
Proof.
  destruct l as [|[k' v'] l]; simpl; [discriminate|].
  destruct (ym_ltb k k'); [discriminate|].
  destruct (ym_eqb k k'); discriminate.
Qed.

Lemma monthly_totals_nil (recs : list ExpenseRecord) :
  monthly_totals_of recs = [] <-> recs = [].
Proof.
  split; [|intros ->; reflexivity].
  destruct recs as [|r recs]; [reflexivity|].
  simpl. intros H. exfalso. exact (add_month_not_nil _ _ _ H).
Qed.










End EngineFacts.

Local Open Scope Q_scope.

(** C1: in every response of [computeSuggestion] the three parts of the
    breakdown add up to [suggested_total] within a tolerance of 0.01; on
    exact amounts they add up to it exactly. *)
Theorem breakdown_sums_to_total (pol : Engine.Policy) (coll : Engine.Collaborators)
    (userId : Z) (m : option Engine.YearMonth) (lookbackMonths : Z)
    (opts : Engine.Options) (r : Engine.BudgetSuggestion) :
  Engine.computeSuggestion pol coll userId m lookbackMonths opts = inr r ->
  Qabs (Engine.needs (Engine.breakdown r) + Engine.wants (Engine.breakdown r)
        + Engine.savings (Engine.breakdown r) - Engine.suggested_total r)
  <= 1 # 100
  /\ Engine.needs (Engine.breakdown r) + Engine.wants (Engine.breakdown r)
     + Engine.savings (Engine.breakdown r) == Engine.suggested_total r.
Proof.
  intros Hr.
  destruct (computeSuggestion_inr pol coll _ _ _ _ _ Hr) as (recs & _ & _ & _ & ->).
  rewrite breakdown_attach, suggested_total_attach.
  unfold Engine.heuristic_suggestion.
  cbn [Engine.breakdown Engine.suggested_total].
  set (t := Engine.suggested_total_of pol (Engine.monthly_totals_of recs)).
  pose proof (breakdown_of_sum t) as H.
  split; [|exact H].
  apply (proj2 (Qabs_Qle_condition _ _)). split; lra.
Qed.

Lemma breakdown_sums_to_total_witness :
  exists r,
    Engine.computeSuggestion example_policy
      (example_collaborators example_records true) 7 (Some feb_2026) 2 with_key
    = inr r
    /\ Qabs (Engine.needs (Engine.breakdown r) + Engine.wants (Engine.breakdown r)
             + Engine.savings (Engine.breakdown r) - Engine.suggested_total r)
       <= 1 # 100.
Proof.
  eexists. split.
  - reflexivity.
  - apply (proj1 (breakdown_sums_to_total example_policy
                    (example_collaborators example_records true) 7
                    (Some feb_2026) 2 with_key _ eq_refl)).
Defined.



(** C4: when storage has no record for the window, [computeSuggestion]
    does not fail: it returns a response whose [suggested_total] is the
    configured default, whose confidence is [no_data] with score 0, with
    no category suggestion and no [spending_trend]. *)
Theorem no_data_suggestion (pol : Engine.Policy) (coll : Engine.Collaborators)
    (userId : Z) (m : option Engine.YearMonth) (lookbackMonths : Z)
    (opts : Engine.Options) :
  (0 < lookbackMonths)%Z ->
  Engine.valid_month (Engine.target_month coll m) = true ->
  Engine.fetch_window coll userId m lookbackMonths = Some [] ->
  exists r,
    Engine.computeSuggestion pol coll userId m lookbackMonths opts = inr r
    /\ Engine.suggested_total r = Engine.default_total pol
    /\ Engine.label (Engine.confidence r) = Engine.no_data
    /\ Engine.score (Engine.confidence r) = 0
    /\ Engine.category_suggestions r = []
    /\ Engine.spending_trend r = None
    /\ Engine.months_with_data (Engine.data_range r) = 0%nat.
Proof.
  intros Hlb Hm Hfetch.
  eexists. split.
  - apply computeSuggestion_returns; eassumption.
  - pose proof (attach_tips_numeric pol coll opts
                  (Engine.heuristic_suggestion pol coll (Engine.target_month coll m)
                     lookbackMonths [])) as H.
    unfold Engine.numeric_fields in H.
    injection H as _ Htotal _ Hconf Htrend Hcats Hrange _.
    rewrite Htotal, Hconf, Htrend, Hcats, Hrange.
    repeat split; reflexivity.
Qed.

Lemma no_data_suggestion_witness :
  exists r,
    Engine.computeSuggestion example_policy (example_collaborators [] true)
      7 None 6 with_key = inr r
    /\ Engine.suggested_total r = 500
    /\ Engine.label (Engine.confidence r) = Engine.no_data
    /\ Engine.score (Engine.confidence r) = 0
    /\ Engine.category_suggestions r = []
    /\ Engine.spending_trend r = None
    /\ Engine.months_with_data (Engine.data_range r) = 0%nat.
Proof.
  apply (no_data_suggestion example_policy (example_collaborators [] true)
           7 None 6 with_key); [lia | reflexivity | reflexivity].
Defined.



Local Close Scope Q_scope.

(** * Properties of the frontend *)

Lemma upper_char_not_lower (c : ascii) : is_lower (upper_char c) = false.
Proof.
  destruct c as [[] [] [] [] [] [] [] []]; vm_compute; reflexivity.
Qed.

Lemma upper_char_idem (c : ascii) : upper_char (upper_char c) = upper_char c.
Proof.
  unfold upper_char at 1. rewrite upper_char_not_lower. reflexivity.
Qed.

Lemma toUpperCase_idem (s : string) : toUpperCase (toUpperCase s) = toUpperCase s.
Proof.
  unfold toUpperCase.
  induction s as [|c s IH]; cbn [map_string]; [reflexivity|].
  rewrite upper_char_idem, IH. reflexivity.
Qed.


(** C7, as the sources have it: the [method] of a response of the engine
    is one of heuristic, heuristic_default, openai and gemini; the type
    the Budgets page imports accepts exactly heuristic, heuristic_default
    and openai; the type the Analytics page imports accepts every
    string. *)
Theorem method_values_accepted :
  (forall m : Engine.Method,
     In (Engine.method_name m) ["heuristic"; "heuristic_default"; "openai"; "gemini"])
  /\ (forall v : string,
        InsightsBudgets.method_type v = true
        <-> In v ["heuristic"; "heuristic_default"; "openai"])
  /\ (forall v : string, InsightsAnalytics.method_type v = true).
Proof.
  split; [|split].
  - intros []; simpl; auto.
  - intros v. unfold InsightsBudgets.method_type.
    rewrite !orb_true_iff, !String.eqb_eq. simpl. intuition congruence.
  - intros v. unfold InsightsAnalytics.method_type.
    rewrite orb_true_r. reflexivity.
Qed.

(** C7 as stated fails: the Budgets revision of the type does not accept
    gemini, and the Analytics revision accepts a value that is none of
    the four. *)
Lemma method_types_differ :
  InsightsBudgets.method_type "gemini" = false
  /\ InsightsAnalytics.method_type "manual" = true
  /\ ~ In "manual" ["heuristic"; "heuristic_default"; "openai"; "gemini"].
Proof.
  split; [reflexivity|]. split; [reflexivity|].
  simpl. intros [H|[H|[H|[H|[]]]]]; discriminate.
Qed.

(** C8, as the sources have it: the client of the Budgets page requests
    [/insights/budget-suggestion] with [month] in the query exactly when
    it is a non-empty string and [months] exactly when it is neither 0
    nor NaN, and passes no headers; the client of the Analytics page puts
    [month] in the query when it is a non-empty string, has no [months],
    and sets X-Gemini-Api-Key and X-Insight-Persona, and nothing else,
    exactly when [geminiApiKey] and [persona] are non-empty strings. *)
Theorem getBudgetSuggestion_requests :
  (forall (h : Host) (month : option string) (months : option JSNumber),
     let call := InsightsBudgets.getBudgetSuggestion h month months in
     path call
     = "/insights/budget-suggestion"
       ++ match nonempty month, nonzero months with
          | Some m, Some n =>
              "?month=" ++ form_urlencode m
              ++ "&months=" ++ form_urlencode (NumberToString h n)
          | Some m, None => "?month=" ++ form_urlencode m
          | None, Some n => "?months=" ++ form_urlencode (NumberToString h n)
          | None, None => ""
          end
     /\ headers call = None /\ body call = None)
  /\ (forall params : option InsightsAnalytics.Params,
        let call := InsightsAnalytics.getBudgetSuggestion params in
        path call
        = "/insights/budget-suggestion"
          ++ match nonempty (params ≫= InsightsAnalytics.month) with
             | Some m => "?month=" ++ encodeURIComponent m
             | None => ""
             end
        /\ exists hs : gmap string string,
             headers call = Some hs
             /\ hs !! "X-Gemini-Api-Key"
                = nonempty (params ≫= InsightsAnalytics.geminiApiKey)
             /\ hs !! "X-Insight-Persona"
                = nonempty (params ≫= InsightsAnalytics.persona)
             /\ forall k, k <> "X-Gemini-Api-Key" -> k <> "X-Insight-Persona" ->
                          hs !! k = None).
Proof.
  split.
  - intros h month months call. unfold call, InsightsBudgets.getBudgetSuggestion.
    repeat split.
    destruct month as [[|c m]|]; destruct months as [[| |q]|];
      cbn [nonempty nonzero string_truthy number_truthy path];
      try destruct (negb (Qis_zero q)); reflexivity.
  - intros params call. unfold call, InsightsAnalytics.getBudgetSuggestion.
    cbn [path headers]. split.
    + destruct (params ≫= InsightsAnalytics.month) as [[|c m]|]; reflexivity.
    + eexists. split; [reflexivity|].
      unfold InsightsAnalytics.set_if_truthy, nonempty.
      destruct (params ≫= InsightsAnalytics.geminiApiKey) as [[|c k]|];
        destruct (params ≫= InsightsAnalytics.persona) as [[|c' p]|];
        cbn [string_truthy];
        repeat split; intros; simplify_map_eq; reflexivity.
Qed.

(** C8 as stated fails: [months = 0] and an empty [month] are provided
    and do not reach the query; an empty key and an empty persona are
    provided and set no header. *)
Lemma provided_but_omitted :
  path (InsightsBudgets.getBudgetSuggestion example_host (Some "") (Some (JFinite 0)))
  = "/insights/budget-suggestion"
  /\ headers (InsightsAnalytics.getBudgetSuggestion
                (Some {| InsightsAnalytics.month := None;
                         InsightsAnalytics.geminiApiKey := Some "";
                         InsightsAnalytics.persona := Some "" |}))
     = Some ∅.
Proof. split; reflexivity. Qed.

(** ** The reminder offsets *)

(** Every offset that is sent is a finite number that is not negative. *)
Lemma parse_offsets_valid (offsetsInput : string) :
  Forall (fun x => isFinite x = true /\ ge_zero x = true)
         (Reminders.parse_offsets offsetsInput).
Proof.
  unfold Reminders.parse_offsets.
  apply List.Forall_forall. intros x Hx.
  apply List.filter_In in Hx. destruct Hx as [_ Hx].
  unfold Reminders.valid_offset in Hx.
  apply andb_true_iff in Hx. exact Hx.
Qed.

(** The tokens whose number is not finite or is negative are dropped, the
    others are kept, in their order. *)
Lemma parse_offsets_tokens (offsetsInput : string) (x : JSNumber) :
  In x (Reminders.parse_offsets offsetsInput)
  <-> (exists tok, In tok (split "," offsetsInput) /\ x = StringToNumber (trim tok))
      /\ Reminders.valid_offset x = true.
Proof.
  unfold Reminders.parse_offsets.
  rewrite List.filter_In, List.in_map_iff.
  split.
  - intros [(tok & <- & Hin) Hv]. split; [exists tok; auto | exact Hv].
  - intros [(tok & Hin & ->) Hv]. split; [exists tok; auto | exact Hv].
Qed.

(** The body has [offsets_days] exactly when an offset is left. *)
Lemma schedule_body (h : Host) (c : ascii) (bill offsetsInput : string) :
  exists call,
    Reminders.onScheduleBillReminders h (String c bill) offsetsInput = Some call
    /\ body call
       = Some (match Reminders.parse_offsets offsetsInput with
               | [] => ∅
               | offsets => {[ "offsets_days" := offsets ]}
               end).
Proof.
  eexists. split; [reflexivity|].
  unfold Reminders.scheduleBillReminders. cbn [body].
  destruct (Reminders.parse_offsets offsetsInput); reflexivity.
Qed.

(** C10, where the page departs from it: with the offsets field left
    blank, as it is when the page opens, the one empty token converts to
    the number 0, passes the filter, and the request carries
    [offsets_days: [0]]; the same happens to an empty token between two
    commas.  An input of words only does give the empty body. *)
Theorem blank_offsets_schedule_day_zero (h : Host) :
  Reminders.parse_offsets "" = [JFinite 0]
  /\ Reminders.onScheduleBillReminders h "1" ""
     = Some {| path := "/reminders/bills/1/schedule";
               http_method := Some "POST";
               headers := None;
               body := Some {[ "offsets_days" := [JFinite 0] ]} |}
  /\ Reminders.parse_offsets "7, ,3" = [JFinite 7; JFinite 0; JFinite 3]
  /\ (Reminders.onScheduleBillReminders h "1" "soon" ≫= body) = Some ∅.
Proof.
  repeat split; vm_compute; reflexivity.
Qed.

(** * Properties of the rest of the frontend *)

(** ** Strings: append, reverse and trim *)

Lemma app_cons (c : ascii) (s t : string) : String c s ++ t = String c (s ++ t).
Proof. reflexivity. Qed.

Lemma app_empty_r (s : string) : s ++ "" = s.
Proof.
  induction s as [|c s IH]; [reflexivity|].
  rewrite app_cons, IH. reflexivity.
Qed.

Lemma app_string_assoc (s t u : string) : (s ++ t) ++ u = s ++ (t ++ u).
Proof.
  induction s as [|c s IH]; [reflexivity|].
  rewrite !app_cons, IH. reflexivity.
Qed.

Lemma rev_string_acc (acc s : string) : rev_string acc s = rev_string "" s ++ acc.
Proof.
  revert acc. induction s as [|c s IH]; intros acc; cbn [rev_string].
  - reflexivity.
  - rewrite (IH (String c acc)), (IH (String c "")), app_string_assoc.
    reflexivity.
Qed.

Lemma rev_string_app (s t : string) :
  rev_string "" (s ++ t) = rev_string "" t ++ rev_string "" s.
Proof.
  induction s as [|c s IH].
  - change ("" ++ t) with t. cbn [rev_string]. rewrite app_empty_r. reflexivity.
  - rewrite app_cons. cbn [rev_string].
    rewrite (rev_string_acc (String c "") (s ++ t)), IH,
      (rev_string_acc (String c "") s), app_string_assoc.
    reflexivity.
Qed.

Lemma rev_string_involutive (s : string) : rev_string "" (rev_string "" s) = s.
Proof.
  induction s as [|c s IH]; [reflexivity|].
  cbn [rev_string].
  rewrite (rev_string_acc (String c "") s), rev_string_app, IH. reflexivity.
Qed.

Lemma drop_white_space_start (s : string) :
  starts_with_space (drop_white_space s) = false.
Proof.
  induction s as [|c s IH]; [reflexivity|].
  cbn [drop_white_space]. destruct (is_white_space c) eqn:Hc; [exact IH|].
  cbn [starts_with_space]. exact Hc.
Qed.

Lemma drop_white_space_id (s : string) :
  starts_with_space s = false -> drop_white_space s = s.
Proof.
  destruct s as [|c s]; [reflexivity|].
  cbn [starts_with_space drop_white_space]. intros ->. reflexivity.
Qed.

Lemma drop_white_space_empty (s : string) :
  drop_white_space s = "" <-> forallb_string is_white_space s = true.
Proof.
  induction s as [|c s IH]; cbn [drop_white_space forallb_string].
  - split; reflexivity.
  - destruct (is_white_space c); cbn [andb]; [exact IH|].
    split; discriminate.
Qed.

Lemma forallb_string_app (p : ascii -> bool) (s t : string) :
  forallb_string p (s ++ t) = forallb_string p s && forallb_string p t.
Proof.
  induction s as [|c s IH]; [reflexivity|].
  rewrite app_cons. cbn [forallb_string]. rewrite IH, andb_assoc. reflexivity.
Qed.

Lemma forallb_string_rev (p : ascii -> bool) (s : string) :
  forallb_string p (rev_string "" s) = forallb_string p s.
Proof.
  induction s as [|c s IH]; [reflexivity|].
  cbn [rev_string].
  rewrite (rev_string_acc (String c "") s), forallb_string_app, IH.
  cbn [forallb_string]. rewrite andb_true_r, andb_comm. reflexivity.
Qed.

(** Dropping leading white space keeps the end of a string that has
    something else in it. *)
Lemma drop_white_space_end (s : string) :
  drop_white_space s <> "" ->
  ends_with_space (drop_white_space s) = ends_with_space s.
Proof.
  unfold ends_with_space.
  induction s as [|c s IH]; [reflexivity|].
  cbn [drop_white_space]. destruct (is_white_space c); [|reflexivity].
  intros Hne. rewrite (IH Hne).
  cbn [rev_string]. rewrite (rev_string_acc (String c "") s).
  destruct (rev_string "" s) as [|c' r] eqn:Hr; [|reflexivity].
  exfalso. apply Hne.
  assert (s = "") as -> by (rewrite <- (rev_string_involutive s), Hr; reflexivity).
  reflexivity.
Qed.

Lemma trim_rev (s : string) :
  rev_string "" (trim s) = drop_white_space (rev_string "" (drop_white_space s)).
Proof. unfold trim. apply rev_string_involutive. Qed.

(** What [trim] returns has no white space at either end. *)
Lemma trim_ends (s : string) :
  starts_with_space (trim s) = false /\ ends_with_space (trim s) = false.
Proof.
  split.
  - destruct (trim s) as [|c t] eqn:Ht; [reflexivity|].
    rewrite <- Ht.
    pose proof (trim_rev s) as Hrev.
    set (x := rev_string "" (drop_white_space s)) in *.
    assert (Hne : drop_white_space x <> "").
    { intros H0. rewrite H0 in Hrev.
      assert (trim s = "") as H1
        by (rewrite <- (rev_string_involutive (trim s)), Hrev; reflexivity).
      congruence. }
    pose proof (drop_white_space_end x Hne) as Hend.
    unfold ends_with_space in Hend. rewrite <- Hrev in Hend.
    rewrite rev_string_involutive in Hend. rewrite Hend.
    unfold x. rewrite rev_string_involutive.
    apply drop_white_space_start.
  - unfold ends_with_space. rewrite trim_rev. apply drop_white_space_start.
Qed.

(** [trim] leaves nothing exactly when the string is all white space. *)
Lemma trim_empty (s : string) :
  trim s = "" <-> forallb_string is_white_space s = true.
Proof.
  rewrite <- drop_white_space_empty.
  split.
  - intros Ht.
    pose proof (trim_rev s) as Hrev. rewrite Ht in Hrev. cbn [rev_string] in Hrev.
    symmetry in Hrev. apply drop_white_space_empty in Hrev.
    rewrite forallb_string_rev in Hrev.
    set (d := drop_white_space s) in *.
    pose proof (drop_white_space_start s) as Hs. fold d in Hs.
    destruct d as [|c d]; [reflexivity|].
    cbn [forallb_string starts_with_space] in *. rewrite Hs in Hrev. discriminate.
  - intros Hd. unfold trim. rewrite Hd. reflexivity.
Qed.

(** A string without white space at its ends is left as it is. *)
Lemma trim_id (s : string) :
  starts_with_space s = false -> ends_with_space s = false -> trim s = s.
Proof.
  intros Hs He. unfold trim.
  rewrite (drop_white_space_id s Hs), (drop_white_space_id _ He).
  apply rev_string_involutive.
Qed.

Lemma trim_idempotent (s : string) : trim (trim s) = trim s.
Proof. apply trim_id; apply trim_ends. Qed.

(** ** The Reminders page *)

Lemma or_try_again_not_empty (m : string) : RemindersPage.or_try_again m <> "".
Proof. destruct m; discriminate. Qed.

(** X1: for a message of ASCII characters, [onCreate] never sends a
    reminder whose message is empty or has white space at its ends: the
    message of every request it makes is the trimmed text of the form,
    which is not empty. *)
Theorem onCreate_sends_trimmed (d : RemindersPage.DateHost)
    (created : RemindersPage.Outcome unit)
    (listed : RemindersPage.Outcome (list RemindersPage.Reminder))
    (now : string) (st : RemindersPage.Page) (c : RemindersApi.Call) (m : string) :
  ascii_text (RemindersPage.form_message st) = true ->
  In c (RemindersPage.onCreate d created listed now st).2 ->
  RemindersApi.c_body c ≫= (.!! "message") = Some (RemindersApi.JsonString m) ->
  m = trim (RemindersPage.form_message st)
  /\ m <> ""
  /\ starts_with_space m = false
  /\ ends_with_space m = false.
Proof.
  intros _. unfold RemindersPage.onCreate.
  destruct (string_truthy (trim (RemindersPage.form_message st))) eqn:Hm;
    cbn [negb]; [|intros []].
  cbn [RemindersPage.sendAt RemindersPage.setSaving RemindersPage.form_message
       RemindersPage.form_channel].
  assert (Hgoal : forall m',
             RemindersApi.c_body
               (RemindersApi.createReminder
                  {| RemindersApi.rc_message := trim (RemindersPage.form_message st);
                     RemindersApi.rc_send_at := m';
                     RemindersApi.rc_channel := Some (RemindersPage.form_channel st) |})
             ≫= (.!! "message") = Some (RemindersApi.JsonString m) ->
             m = trim (RemindersPage.form_message st)
             /\ m <> "" /\ starts_with_space m = false /\ ends_with_space m = false).
  { intros iso Hb. cbn in Hb.
    unfold RemindersApi.create_object, RemindersApi.put in Hb. cbn in Hb.
    simplify_map_eq.
    split; [reflexivity|]. split.
    - intros H0. rewrite H0 in Hm. discriminate.
    - apply trim_ends. }
  destruct (RemindersPage.toISOString d (RemindersPage.sendAt st)) as [iso|];
    [|intros []].
  destruct created as [[]|e].
  - destruct (RemindersPage.refresh listed _) as [st' toasts].
    cbn [snd]. intros [<-|[<-|[]]] Hb; [exact (Hgoal _ Hb)|discriminate].
  - cbn [snd]. intros [<-|[]] Hb. exact (Hgoal _ Hb).
Qed.

Lemma onCreate_sends_trimmed_witness :
  "Pay credit card" = trim (RemindersPage.form_message example_page)
  /\ "Pay credit card" <> ""
  /\ starts_with_space "Pay credit card" = false
  /\ ends_with_space "Pay credit card" = false.
Proof.
  apply (onCreate_sends_trimmed example_dates (RemindersPage.Resolved tt)
           (RemindersPage.Resolved []) "2026-03-11T10:00" example_page
           (RemindersApi.createReminder
              {| RemindersApi.rc_message := "Pay credit card";
                 RemindersApi.rc_send_at := "2026-03-10T09:00:00.000Z";
                 RemindersApi.rc_channel := Some RemindersApi.whatsapp |})).
  - reflexivity.
  - vm_compute. left. reflexivity.
  - vm_compute. reflexivity.
Defined.

(** X2: for a message of ASCII characters, [onCreate] makes no request
    when the message is white space only, in which case it does nothing
    at all, nor for a date the host cannot read, in which case it reports
    the error and keeps the form and the list as they are. *)
Theorem onCreate_without_request (d : RemindersPage.DateHost)
    (created : RemindersPage.Outcome unit)
    (listed : RemindersPage.Outcome (list RemindersPage.Reminder))
    (now : string) (st : RemindersPage.Page) :
  ascii_text (RemindersPage.form_message st) = true ->
  (forallb_string is_white_space (RemindersPage.form_message st) = true ->
   RemindersPage.onCreate d created listed now st = (st, [], []))
  /\ (forallb_string is_white_space (RemindersPage.form_message st) = false ->
      RemindersPage.toISOString d (RemindersPage.sendAt st) = None ->
      exists st' toast,
        RemindersPage.onCreate d created listed now st = (st', [toast], [])
        /\ RemindersPage.error st' = Some (RemindersPage.invalid_date_message d)
        /\ RemindersPage.saving st' = false
        /\ RemindersPage.items st' = RemindersPage.items st
        /\ RemindersPage.open st' = RemindersPage.open st
        /\ RemindersPage.form_message st' = RemindersPage.form_message st
        /\ RemindersPage.sendAt st' = RemindersPage.sendAt st).
Proof.
  intros _. unfold RemindersPage.onCreate. split.
  - intros Hws. apply trim_empty in Hws. rewrite Hws. reflexivity.
  - intros Hws Hdate.
    destruct (trim (RemindersPage.form_message st)) as [|c t] eqn:Ht.
    { apply trim_empty in Ht. congruence. }
    cbn [string_truthy negb RemindersPage.sendAt RemindersPage.setSaving].
    rewrite Hdate. eexists. eexists. split; [reflexivity|].
    repeat split.
Qed.

Lemma onCreate_without_request_witness :
  RemindersPage.onCreate example_dates (RemindersPage.Resolved tt)
    (RemindersPage.Resolved []) "now"
    (RemindersPage.setItems [] (RemindersPage.resetForm "" example_page))
  = (RemindersPage.setItems [] (RemindersPage.resetForm "" example_page), [], [])
  /\ exists st' toast,
       RemindersPage.onCreate example_dates (RemindersPage.Resolved tt)
         (RemindersPage.Resolved []) "now" example_page_without_time
       = (st', [toast], [])
       /\ RemindersPage.error st' = Some "Invalid time value"
       /\ RemindersPage.form_message st' = "Rent".
Proof.
  split.
  - apply (onCreate_without_request example_dates (RemindersPage.Resolved tt)
             (RemindersPage.Resolved []) "now"
             (RemindersPage.setItems [] (RemindersPage.resetForm "" example_page)));
      reflexivity.
  - destruct (onCreate_without_request example_dates (RemindersPage.Resolved tt)
                (RemindersPage.Resolved []) "now" example_page_without_time eq_refl)
      as [_ H].
    destruct (H eq_refl eq_refl) as (st' & toast & Heq & Herr & _ & _ & _ & Hm & _).
    exists st', toast. split; [exact Heq|]. split; [exact Herr | exact Hm].
Defined.

(** X3: for a message of ASCII characters that is not white space only,
    [onCreate] requests the reminder and, once it is created, loads the
    list again, closes and empties the form and says so, also when the
    reload of the list fails: the list is then the old one and the error
    of the reload is shown. *)
Theorem onCreate_resets_form (d : RemindersPage.DateHost)
    (listed : RemindersPage.Outcome (list RemindersPage.Reminder))
    (now iso : string) (st : RemindersPage.Page) :
  ascii_text (RemindersPage.form_message st) = true ->
  forallb_string is_white_space (RemindersPage.form_message st) = false ->
  RemindersPage.toISOString d (RemindersPage.sendAt st) = Some iso ->
  exists st' toasts,
    RemindersPage.onCreate d (RemindersPage.Resolved tt) listed now st
    = (st', toasts,
       [RemindersApi.createReminder
          {| RemindersApi.rc_message := trim (RemindersPage.form_message st);
             RemindersApi.rc_send_at := iso;
             RemindersApi.rc_channel := Some (RemindersPage.form_channel st) |};
        RemindersApi.listReminders])
    /\ RemindersPage.open st' = false
    /\ RemindersPage.form_message st' = ""
    /\ RemindersPage.form_channel st' = RemindersApi.email
    /\ RemindersPage.sendAt st' = now
    /\ RemindersPage.saving st' = false
    /\ RemindersPage.loading st' = false
    /\ last toasts = Some {| RemindersPage.title := "Reminder created";
                             RemindersPage.description := None |}
    /\ match listed with
       | RemindersPage.Resolved data =>
           RemindersPage.items st' = data /\ RemindersPage.error st' = None
       | RemindersPage.Rejected e =>
           RemindersPage.items st' = RemindersPage.items st
           /\ RemindersPage.error st'
              = Some (RemindersPage.getErrorMessage e "Failed to load reminders")
       end.
Proof.
  intros _ Hws Hdate. unfold RemindersPage.onCreate.
  assert (Ht : string_truthy (trim (RemindersPage.form_message st)) = true).
  { destruct (trim (RemindersPage.form_message st)) eqn:Ht; [|reflexivity].
    apply trim_empty in Ht. congruence. }
  rewrite Ht.
  cbn [negb RemindersPage.sendAt RemindersPage.setSaving
       RemindersPage.form_message RemindersPage.form_channel].
  rewrite Hdate.
  destruct listed as [data|e]; cbn [RemindersPage.refresh];
    eexists; eexists; (split; [reflexivity|]); repeat split.
Qed.

Lemma onCreate_resets_form_witness :
  exists st' toasts calls,
    RemindersPage.onCreate example_dates (RemindersPage.Resolved tt)
      (RemindersPage.Rejected RemindersPage.OtherValue) "2026-03-11T10:00" example_page
    = (st', toasts, calls)
    /\ RemindersPage.form_message st' = ""
    /\ RemindersPage.items st' = RemindersPage.items example_page.
Proof.
  destruct (onCreate_resets_form example_dates
              (RemindersPage.Rejected RemindersPage.OtherValue)
              "2026-03-11T10:00" "2026-03-10T09:00:00.000Z" example_page
              eq_refl eq_refl eq_refl)
    as (st' & toasts & Heq & _ & Hm & _ & _ & _ & _ & _ & Hitems & _).
  exists st', toasts. eexists. split; [exact Heq|]. split; assumption.
Defined.

(** X4: [onDelete] asks the server first.  When the server has deleted
    the reminder, the reminders with that id, and only they, leave the
    list, the others staying in their order; an id that is NaN removes
    nothing.  When the server refuses, the list is as before and the
    message of the error is shown.  Either way [saving] ends false and one
    DELETE request was made. *)
Theorem onDelete_result (h : Host) (target : JSNumber)
    (deleted : RemindersPage.Outcome unit) (st : RemindersPage.Page) :
  let '(st', toasts, calls) := RemindersPage.onDelete h target deleted st in
  calls = [RemindersApi.deleteReminder h target]
  /\ RemindersPage.saving st' = false
  /\ match deleted with
     | RemindersPage.Resolved _ =>
         (forall r, In r (RemindersPage.items st')
                    <-> In r (RemindersPage.items st)
                        /\ JSArith.strict_eq (RemindersPage.id r) target = false)
         /\ sublist (RemindersPage.items st') (RemindersPage.items st)
         /\ (target = JNaN -> RemindersPage.items st' = RemindersPage.items st)
         /\ RemindersPage.error st' = RemindersPage.error st
     | RemindersPage.Rejected e =>
         RemindersPage.items st' = RemindersPage.items st
         /\ RemindersPage.error st'
            = Some (RemindersPage.getErrorMessage e "Failed to delete reminder")
     end.
Proof.
  unfold RemindersPage.onDelete.
  destruct deleted as [[]|e]; cbn [RemindersPage.items RemindersPage.setItems
    RemindersPage.setSaving RemindersPage.saving RemindersPage.error
    RemindersPage.setError].
  - split; [reflexivity|]. split; [reflexivity|]. repeat split.
    + apply List.filter_In in H. tauto.
    + apply List.filter_In in H. destruct H as [_ H].
      apply negb_true_iff in H. exact H.
    + intros [Hin Hne]. apply List.filter_In. split; [exact Hin|].
      rewrite Hne. reflexivity.
    + induction (RemindersPage.items st) as [|r l IH]; cbn [List.filter].
      * constructor.
      * destruct (negb _); [apply sublist_skip | apply sublist_cons]; exact IH.
    + intros ->.
      induction (RemindersPage.items st) as [|r l IH]; cbn [List.filter];
        [reflexivity|].
      destruct (RemindersPage.id r); cbn [JSArith.strict_eq negb]; rewrite IH;
        reflexivity.
  - repeat split.
Qed.

(** ** Decimal numerals: [String] of an integer and [Number] of its digits *)

Lemma pretty_N_char_digit (x : N) :
  is_digit (pretty_N_char x) = true.
Proof. unfold pretty_N_char. repeat case_match; reflexivity. Qed.

Lemma pretty_N_char_value (x : N) :
  (x < 10)%N -> digit_value (pretty_N_char x) = Z.of_N x.
Proof.
  intros Hx.
  assert (x = 0 \/ x = 1 \/ x = 2 \/ x = 3 \/ x = 4 \/ x = 5 \/ x = 6 \/ x = 7
          \/ x = 8 \/ x = 9)%N as H by lia.
  repeat (destruct H as [->|H]; [reflexivity|]). subst. reflexivity.
Qed.

Lemma pretty_N_go_digits (n : N) (s : string) :
  forallb_string is_digit s = true ->
  forallb_string is_digit (pretty_N_go n s) = true.
Proof.
  revert s. induction (N.lt_wf_0 n) as [n _ IH]. intros s Hs.
  destruct (N.eq_dec n 0%N) as [->|Hn]; [exact Hs|].
  rewrite pretty_N_go_step by lia.
  apply IH; [apply N.div_lt; lia|].
  cbn [forallb_string]. rewrite pretty_N_char_digit, Hs. reflexivity.
Qed.

Lemma digits_value_acc (base acc : Z) (s : string) :
  digits_value base acc s
  = (acc * base ^ Z.of_nat (String.length s) + digits_value base 0 s)%Z.
Proof.
  revert acc. induction s as [|c s IH]; intros acc; cbn [digits_value String.length].
  - rewrite Z.pow_0_r. lia.
  - rewrite (IH (acc * base + digit_value c)%Z), (IH (0 * base + digit_value c)%Z).
    rewrite Nat2Z.inj_succ, Z.pow_succ_r by lia. ring.
Qed.

Lemma pretty_N_go_value (n : N) (s : string) :
  digits_value 10 0 (pretty_N_go n s)
  = (Z.of_N n * 10 ^ Z.of_nat (String.length s) + digits_value 10 0 s)%Z.
Proof.
  revert s. induction (N.lt_wf_0 n) as [n _ IH]. intros s.
  destruct (N.eq_dec n 0%N) as [->|Hn]; [rewrite pretty_N_go_0; lia|].
  rewrite pretty_N_go_step by lia.
  rewrite IH by (apply N.div_lt; lia).
  cbn [digits_value String.length].
  rewrite (digits_value_acc 10 (0 * 10 + _) s).
  rewrite pretty_N_char_value by (apply N.mod_lt; lia).
  rewrite Nat2Z.inj_succ, Z.pow_succ_r by lia.
  rewrite (N.div_mod n 10) at 3 by lia.
  rewrite N2Z.inj_add, N2Z.inj_mul. change (Z.of_N 10) with 10%Z. ring.
Qed.

Lemma pretty_N_go_not_empty (n : N) (s : string) :
  s <> "" -> pretty_N_go n s <> "".
Proof.
  revert s. induction (N.lt_wf_0 n) as [n _ IH]. intros s Hs.
  destruct (N.eq_dec n 0%N) as [->|Hn]; [exact Hs|].
  rewrite pretty_N_go_step by lia.
  apply IH; [apply N.div_lt; lia | discriminate].
Qed.

(** The decimal numeral of a natural number: digits only, at least one,
    and their value is the number. *)
Lemma pretty_N_numeral (n : N) :
  forallb_string is_digit (pretty n) = true
  /\ pretty n <> ""
  /\ digits_value 10 0 (pretty n) = Z.of_N n.
Proof.
  unfold pretty, pretty_N. destruct (decide (n = 0%N)) as [->|Hn].
  - repeat split. discriminate.
  - split; [apply pretty_N_go_digits; reflexivity|]. split.
    + rewrite pretty_N_go_step by lia.
      apply pretty_N_go_not_empty. discriminate.
    + rewrite pretty_N_go_value. cbn [String.length digits_value]. lia.
Qed.

Lemma digit_not_space (c : ascii) : is_digit c = true -> is_white_space c = false.
Proof.
  destruct c as [[] [] [] [] [] [] [] []]; vm_compute; congruence.
Qed.

Lemma digits_no_space (s : string) :
  forallb_string is_digit s = true ->
  starts_with_space s = false /\ ends_with_space s = false.
Proof.
  assert (H : forall t, forallb_string is_digit t = true -> starts_with_space t = false).
  { intros [|c t]; [reflexivity|]. cbn [forallb_string starts_with_space].
    intros Hc. apply andb_true_iff in Hc. apply digit_not_space, Hc. }
  intros Hs. split; [apply H, Hs|].
  apply H. rewrite forallb_string_rev. exact Hs.
Qed.

Lemma span_all (p : ascii -> bool) (s : string) :
  forallb_string p s = true -> span p s = (s, "").
Proof.
  induction s as [|c s IH]; [reflexivity|].
  cbn [forallb_string span]. intros H. apply andb_true_iff in H.
  destruct H as [-> H]. rewrite (IH H). reflexivity.
Qed.

Lemma parse_unsigned_decimal_digits (s : string) :
  forallb_string is_digit s = true -> s <> "" ->
  parse_unsigned_decimal s = to_number (inject_Z (digits_value 10 0 s)).
Proof.
  intros Hd Hne. unfold parse_unsigned_decimal.
  destruct (String.eqb_spec s "Infinity") as [->|_]; [discriminate Hd|].
  rewrite (span_all _ _ Hd). cbn [span].
  rewrite app_empty_r.
  destruct s as [|c s]; [congruence|].
  cbn [parse_exponent String.length Z.of_nat].
  unfold scale10. cbn [Z.sub Z.opp Z.add Z.leb Z.compare Z.pow Z.pow_pos].
  rewrite Z.mul_1_r. reflexivity.
Qed.

(** [Number] of a string of digits is the number they spell. *)
Lemma StringToNumber_digits (s : string) :
  forallb_string is_digit s = true -> s <> "" ->
  StringToNumber s = to_number (inject_Z (digits_value 10 0 s)).
Proof.
  intros Hd Hne. unfold StringToNumber.
  destruct (digits_no_space s Hd) as [Hs He].
  rewrite (trim_id s Hs He).
  rewrite <- (parse_unsigned_decimal_digits s Hd Hne).
  destruct s as [|c1 s]; [congruence|].
  cbn [forallb_string] in Hd. apply andb_true_iff in Hd. destruct Hd as [Hc1 Hd].
  destruct c1 as [[] [] [] [] [] [] [] []]; try discriminate Hc1; try reflexivity.
  destruct s as [|c2 s]; [reflexivity|].
  cbn [forallb_string] in Hd. apply andb_true_iff in Hd. destruct Hd as [Hc2 _].
  destruct c2 as [[] [] [] [] [] [] [] []]; try discriminate Hc2; reflexivity.
Qed.

Lemma Qred_inject_Z (z : Z) : Qred (inject_Z z) = inject_Z z.
Proof.
  apply Qcanon.Qred_identity. cbn [inject_Z Qnum Qden]. apply Z.gcd_1_r.
Qed.

Local Open Scope Q_scope.

Lemma pow2_pos (e : Z) : 0 < pow2 e.
Proof.
  unfold pow2. destruct (0 <=? e)%Z eqn:He.
  - apply Z.leb_le in He. change 0 with (inject_Z 0). rewrite <- Zlt_Qlt.
    apply Z.pow_pos_nonneg; lia.
  - reflexivity.
Qed.

(** For [0 <= k], [2 ^ -k] is the inverse of [2 ^ k]. *)
Lemma pow2_inverse (k : Z) :
  (0 <= k)%Z -> pow2 (- k) * inject_Z (2 ^ k) == 1.
Proof.
  intros Hk. unfold pow2.
  assert (Hp : (0 < 2 ^ k)%Z) by (apply Z.pow_pos_nonneg; lia).
  destruct (0 <=? - k)%Z eqn:He.
  - apply Z.leb_le in He. assert (k = 0%Z) as -> by lia. reflexivity.
  - rewrite Z.opp_involutive. unfold Qeq, Qmult, inject_Z. cbn [Qnum Qden].
    rewrite Pos.mul_1_r, Z2Pos.id by exact Hp. lia.
Qed.

(** Rounding leaves a whole number alone. *)
Lemma round_half_even_integer (x : Q) (m : Z) :
  x == inject_Z m -> round_half_even x = m.
Proof.
  intros Hx. unfold round_half_even.
  assert (Hf : Qfloor x = m) by (rewrite Hx; apply Qfloor_Z).
  rewrite Hf.
  destruct (Qcompare_spec (x - inject_Z m) (1 # 2)) as [H|H|H];
    [lra | reflexivity | lra].
Qed.

Lemma binade_integer (z : Z) :
  (1 <= z)%Z -> binade (inject_Z z) = Z.log2 z.
Proof.
  intros Hz. unfold binade.
  change (Qnum (inject_Z z)) with z. change (Qden (inject_Z z)) with 1%positive.
  change (Z.log2 1) with 0%Z. rewrite Z.sub_0_r.
  destruct (Z.log2_spec z ltac:(lia)) as [Hlo _].
  pose proof (Z.log2_nonneg z) as Hl.
  unfold pow2. rewrite (proj2 (Z.leb_le 0 (Z.log2 z)) Hl).
  assert (Hle : Qle_bool (inject_Z (2 ^ Z.log2 z)) (inject_Z z) = true).
  { apply Qle_bool_iff. rewrite <- Zle_Qle. exact Hlo. }
  rewrite Hle. reflexivity.
Qed.

(** A whole number up to [2 ^ 53] is a Number as it stands. *)
Lemma to_number_integer (z : Z) :
  (0 <= z <= safe_bound)%Z -> to_number (inject_Z z) = JFinite (inject_Z z).
Proof.
  intros Hz.
  destruct (Z.eq_dec z 0%Z) as [->|Hnz]; [reflexivity|].
  destruct (Z.eq_dec z safe_bound) as [->|Hns]; [vm_compute; reflexivity|].
  assert (Hsb : safe_bound = (2 ^ 53)%Z) by reflexivity.
  unfold to_number.
  assert (Hq : Qis_zero (inject_Z z) = false).
  { unfold Qis_zero. apply not_true_iff_false. intros H.
    apply Qeq_bool_iff in H. unfold Qeq, inject_Z in H. cbn [Qnum Qden] in H. lia. }
  rewrite Hq.
  assert (Habs : Qabs (inject_Z z) = inject_Z z).
  { unfold Qabs, inject_Z. rewrite Z.abs_eq by lia. reflexivity. }
  rewrite Habs, binade_integer by lia.
  assert (Hl : (0 <= Z.log2 z < 53)%Z).
  { split; [apply Z.log2_nonneg|]. apply Z.log2_lt_pow2; lia. }
  rewrite Z.max_l by lia.
  set (k := (52 - Z.log2 z)%Z).
  replace (Z.log2 z - 52)%Z with (- k)%Z by (unfold k; lia).
  assert (Hk : (0 <= k)%Z) by (unfold k; lia).
  pose proof (pow2_inverse k Hk) as Hinv.
  pose proof (pow2_pos (- k)) as Hpos.
  assert (Hp : (0 < 2 ^ k)%Z) by (apply Z.pow_pos_nonneg; lia).
  assert (Hpq : 0 < inject_Z (2 ^ k)).
  { change 0 with (inject_Z 0). rewrite <- Zlt_Qlt. exact Hp. }
  revert Hinv Hpos. generalize (pow2 (- k)). intros u Hinv Hpos.
  assert (Hu : inject_Z (2 ^ k) == / u).
  { apply (Qmult_inj_l _ _ u); [lra|]. rewrite Hinv, Qmult_inv_r; lra. }
  assert (Hdiv : inject_Z z / u == inject_Z (z * 2 ^ k)).
  { rewrite inject_Z_mult, Hu. reflexivity. }
  rewrite (round_half_even_integer _ _ Hdiv).
  assert (Hr : inject_Z (z * 2 ^ k) * u == inject_Z z).
  { rewrite inject_Z_mult, Hu. field. lra. }
  assert (Ho : Qle_bool (pow2 1024) (inject_Z (z * 2 ^ k) * u) = false).
  { apply not_true_iff_false. rewrite Qle_bool_iff. rewrite Hr.
    change (pow2 1024) with (inject_Z (2 ^ 1024)). rewrite <- Zle_Qle.
    assert (Hb : (safe_bound < 2 ^ 1024)%Z) by (vm_compute; reflexivity).
    revert Hb. generalize (2 ^ 1024)%Z. intros B Hb. lia. }
  rewrite Ho.
  assert (Hge : Qle_bool 0 (inject_Z z) = true).
  { apply Qle_bool_iff. change 0 with (inject_Z 0). rewrite <- Zle_Qle. lia. }
  rewrite Hge. rewrite (Qred_complete _ _ Hr), Qred_inject_Z. reflexivity.
Qed.

Local Close Scope Q_scope.

Lemma pretty_Z_of_N (n : N) : pretty (Z.of_N n) = pretty n.
Proof. destruct n; reflexivity. Qed.

Lemma is_safe_integer_inject (z : Z) :
  (Z.abs z <= safe_bound)%Z -> is_safe_integer (inject_Z z) = true.
Proof.
  intros Hz. unfold is_safe_integer. rewrite Qred_inject_Z.
  cbn [inject_Z Qnum Qden]. apply andb_true_iff. split; [reflexivity|].
  apply Z.leb_le. exact Hz.
Qed.

(** [String] of a whole number from 0 to [2 ^ 53] is its decimal numeral,
    and [Number] reads the numeral back. *)
Lemma number_string_round_trip (h : Host) (n : N) :
  (Z.of_N n <= safe_bound)%Z ->
  NumberToString h (JFinite (inject_Z (Z.of_N n))) = pretty n
  /\ StringToNumber (pretty n) = JFinite (inject_Z (Z.of_N n)).
Proof.
  intros Hn. split.
  - cbn [NumberToString]. rewrite is_safe_integer_inject by lia.
    rewrite Qred_inject_Z. cbn [inject_Z Qnum]. apply pretty_Z_of_N.
  - destruct (pretty_N_numeral n) as (Hd & Hne & Hv).
    rewrite (StringToNumber_digits _ Hd Hne), Hv.
    apply to_number_integer. lia.
Qed.

(** ** Bills and offsets on the Reminders page *)

Lemma split_not_nil (sep : ascii) (s : string) : split sep s <> [].
Proof.
  induction s as [|c s IH]; cbn [split]; [discriminate|].
  destruct (Ascii.eqb c sep); [discriminate|].
  destruct (split sep s); [congruence | discriminate].
Qed.

Lemma split_no_separator (sep : ascii) (s : string) :
  forallb_string (fun c => negb (Ascii.eqb c sep)) s = true -> split sep s = [s].
Proof.
  induction s as [|c s IH]; cbn [split forallb_string]; [reflexivity|].
  intros H. apply andb_true_iff in H. destruct H as [Hc Hs].
  apply negb_true_iff in Hc. rewrite Hc, (IH Hs). reflexivity.
Qed.

Lemma split_token (sep : ascii) (a r : string) :
  forallb_string (fun c => negb (Ascii.eqb c sep)) a = true ->
  split sep (a ++ String sep r) = a :: split sep r.
Proof.
  induction a as [|c a IH]; cbn [forallb_string].
  - intros _. change ("" ++ String sep r) with (String sep r).
    cbn [split]. rewrite Ascii.eqb_refl. reflexivity.
  - intros H. apply andb_true_iff in H. destruct H as [Hc Ha].
    apply negb_true_iff in Hc.
    rewrite app_cons. cbn [split]. rewrite Hc, (IH Ha). reflexivity.
Qed.

(** Splitting what [join] put together gives the tokens back. *)
Lemma split_join (sep : ascii) (toks : list string) :
  toks <> [] ->
  Forall (fun t => forallb_string (fun c => negb (Ascii.eqb c sep)) t = true) toks ->
  split sep (join (String sep "") toks) = toks.
Proof.
  intros Hne Hall. induction Hall as [|t toks Ht Hall IH]; [congruence|].
  destruct toks as [|t' toks].
  - cbn [join]. apply split_no_separator, Ht.
  - change (join (String sep "") (t :: t' :: toks))
      with (t ++ String sep "" ++ join (String sep "") (t' :: toks)).
    change (String sep "" ++ join (String sep "") (t' :: toks))
      with (String sep (join (String sep "") (t' :: toks))).
    rewrite (split_token sep t _ Ht), IH by discriminate. reflexivity.
Qed.

Lemma digits_no_comma (s : string) :
  forallb_string is_digit s = true ->
  forallb_string (fun c => negb (Ascii.eqb c ",")) s = true.
Proof.
  induction s as [|c s IH]; cbn [forallb_string]; [reflexivity|].
  intros H. apply andb_true_iff in H. destruct H as [Hc Hs].
  rewrite (IH Hs), andb_true_r.
  destruct c as [[] [] [] [] [] [] [] []]; try discriminate Hc; reflexivity.
Qed.

(** X5: offsets typed as decimal numerals between commas, such as 7,3,1,
    are sent as those numbers, in that order. *)
Theorem offsets_of_numerals (h : Host) (c : ascii) (bill : string) (ns : list N) :
  ns <> [] ->
  Forall (fun n => (Z.of_N n <= safe_bound)%Z) ns ->
  let offsets := map (fun n => JFinite (inject_Z (Z.of_N n))) ns in
  Reminders.parse_offsets (join "," (map pretty ns)) = offsets
  /\ (Reminders.onScheduleBillReminders h (String c bill) (join "," (map pretty ns))
      ≫= body)
     = Some {[ "offsets_days" := offsets ]}.
Proof.
  intros Hne Hall offsets.
  assert (Hparse : Reminders.parse_offsets (join "," (map pretty ns)) = offsets).
  { unfold Reminders.parse_offsets.
    rewrite split_join.
    - unfold offsets. clear Hne.
      induction Hall as [|n ns Hn Hall IH]; [reflexivity|].
      cbn [map List.filter].
      destruct (pretty_N_numeral n) as (Hd & _ & _).
      destruct (digits_no_space _ Hd) as [Hs He].
      rewrite (trim_id _ Hs He).
      rewrite (proj2 (number_string_round_trip h n Hn)).
      assert (Hv : Reminders.valid_offset (JFinite (inject_Z (Z.of_N n))) = true).
      { unfold Reminders.valid_offset. cbn [isFinite ge_zero andb].
        apply Qle_bool_iff. unfold Qle. cbn [inject_Z Qnum Qden]. lia. }
      rewrite Hv, IH. reflexivity.
    - destruct ns; [congruence|discriminate].
    - apply List.Forall_map.
      apply List.Forall_forall. intros n _.
      apply digits_no_comma, pretty_N_numeral. }
  split; [exact Hparse|].
  unfold Reminders.onScheduleBillReminders. cbn [string_truthy negb].
  rewrite Hparse.
  destruct ns as [|n ns]; [congruence|]. reflexivity.
Qed.

Lemma offsets_of_numerals_witness :
  Reminders.parse_offsets "7,3,1" = [JFinite 7; JFinite 3; JFinite 1].
Proof.
  apply (offsets_of_numerals example_host "1" "" [7; 3; 1]%N).
  - discriminate.
  - repeat constructor; vm_compute; discriminate.
Defined.

(** X6: when the bills arrive and none was selected, the first one is;
    scheduling and reporting an autopay result then address that bill:
    [Number(String(id))] is the id again, for an id from 0 to [2 ^ 53]. *)
Theorem first_bill_is_addressed (h : Host) (st : RemindersPage.Page)
    (b : RemindersPage.Bill) (rest : list RemindersPage.Bill) (n : N)
    (status : RemindersApi.AutopayStatus) :
  RemindersPage.selectedBillId st = "" ->
  RemindersPage.bill_id b = JFinite (inject_Z (Z.of_N n)) ->
  (Z.of_N n <= safe_bound)%Z ->
  let st' := (RemindersPage.loadBills h (RemindersPage.Resolved (b :: rest)) st).1 in
  RemindersPage.selectedBillId st' = pretty n
  /\ RemindersPage.onAutopayResult h status st'
     = Some (RemindersApi.reportAutopayResult h (RemindersPage.bill_id b) status)
  /\ (RemindersApi.c_path <$> RemindersPage.onAutopayResult h status st')
     = Some ("/reminders/bills/" ++ pretty n ++ "/autopay-result")
  /\ (path <$> Reminders.onScheduleBillReminders h (RemindersPage.selectedBillId st')
                 (RemindersPage.offsetsInput st'))
     = Some ("/reminders/bills/" ++ pretty n ++ "/schedule").
Proof.
  intros Hsel Hid Hn st'.
  destruct (number_string_round_trip h n Hn) as [Hstr Hnum].
  assert (Hsel' : RemindersPage.selectedBillId st' = pretty n).
  { unfold st'. cbn [RemindersPage.loadBills fst RemindersPage.setBills
                     RemindersPage.selectedBillId].
    unfold RemindersPage.select_bill. rewrite Hsel. cbn [string_truthy].
    rewrite Hid. exact Hstr. }
  assert (Htruthy : string_truthy (pretty n) = true).
  { destruct (pretty_N_numeral n) as (_ & Hne & _).
    destruct (pretty n); [congruence|reflexivity]. }
  split; [exact Hsel'|].
  unfold RemindersPage.onAutopayResult, Reminders.onScheduleBillReminders.
  rewrite Hsel', Htruthy, Hnum. cbn [negb fmap option_fmap option_map].
  rewrite Hid. unfold RemindersApi.reportAutopayResult, Reminders.scheduleBillReminders.
  cbn [RemindersApi.c_path path]. rewrite Hstr. repeat split.
Qed.

Lemma first_bill_is_addressed_witness :
  (RemindersApi.c_path <$>
     RemindersPage.onAutopayResult example_host RemindersApi.FAILED
       (RemindersPage.loadBills example_host
          (RemindersPage.Resolved
             [ {| RemindersPage.bill_id := JFinite 12;
                  RemindersPage.bill_name := "Electricity" |} ])
          example_page).1)
  = Some "/reminders/bills/12/autopay-result".
Proof.
  apply (first_bill_is_addressed example_host example_page
           {| RemindersPage.bill_id := JFinite 12;
              RemindersPage.bill_name := "Electricity" |} [] 12
           RemindersApi.FAILED eq_refl eq_refl).
  vm_compute. discriminate.
Defined.

(** ** The requests of the insights clients *)

Lemma count_char_app (c : ascii) (s t : string) :
  count_char c (s ++ t) = (count_char c s + count_char c t)%nat.
Proof.
  induction s as [|c' s IH]; [reflexivity|].
  rewrite app_cons. cbn [count_char]. rewrite IH. lia.
Qed.

Lemma encode_with_reserved (keep : ascii -> bool) (special : ascii -> option string)
    (c : ascii) (s : string) :
  reserved c = true ->
  (forall c', count_char c
                (match special c' with
                 | Some r => r
                 | None => if keep c' then String c' "" else percent_encode c'
                 end) = 0%nat) ->
  count_char c (encode_with keep special s) = 0%nat.
Proof.
  intros _ Hpiece. induction s as [|c' s IH]; [reflexivity|].
  cbn [encode_with]. rewrite count_char_app, Hpiece, IH. reflexivity.
Qed.

Lemma encodeURIComponent_reserved (c : ascii) (s : string) :
  reserved c = true -> count_char c (encodeURIComponent s) = 0%nat.
Proof.
  intros Hc. apply encode_with_reserved; [exact Hc|].
  intros c'. cbv beta iota.
  destruct c as [[] [] [] [] [] [] [] []]; try discriminate Hc;
    destruct c' as [[] [] [] [] [] [] [] []]; vm_compute; reflexivity.
Qed.

Lemma form_urlencode_reserved (c : ascii) (s : string) :
  reserved c = true -> count_char c (form_urlencode s) = 0%nat.
Proof.
  intros Hc. apply encode_with_reserved; [exact Hc|].
  intros c'. cbv beta iota.
  destruct c as [[] [] [] [] [] [] [] []]; try discriminate Hc;
    destruct c' as [[] [] [] [] [] [] [] []]; vm_compute; reflexivity.
Qed.

(** X7: no value of [month] or [months] can add to the query of either
    client: the path has at most one [?], no [#] and no space, and as
    many [=] and [&] as the parameters of the client allow (one [=] and
    no [&] for the Analytics page, two and one for the Budgets page). *)
Theorem insights_query_shape :
  (forall params : option InsightsAnalytics.Params,
     let p := path (InsightsAnalytics.getBudgetSuggestion params) in
     (count_char "?" p <= 1)%nat /\ count_char "&" p = 0%nat
     /\ (count_char "=" p <= 1)%nat /\ count_char "#" p = 0%nat
     /\ count_char " " p = 0%nat)
  /\ (forall (h : Host) (month : option string) (months : option JSNumber),
        let p := path (InsightsBudgets.getBudgetSuggestion h month months) in
        (count_char "?" p <= 1)%nat /\ (count_char "&" p <= 1)%nat
        /\ (count_char "=" p <= 2)%nat /\ count_char "#" p = 0%nat
        /\ count_char " " p = 0%nat).
Proof.
  split.
  - intros params p. unfold p, InsightsAnalytics.getBudgetSuggestion. cbn [path].
    destruct (params ≫= InsightsAnalytics.month) as [[|c m]|].
    + vm_compute. repeat split; lia.
    + cbn [string_truthy].
      rewrite !count_char_app, !encodeURIComponent_reserved by reflexivity.
      vm_compute. repeat split; lia.
    + vm_compute. repeat split; lia.
  - intros h month months p.
    assert (Hq : exists a b : string,
               p = "/insights/budget-suggestion" ++ a
               /\ (a = "" \/ a = "?month=" ++ form_urlencode b
                   \/ a = "?months=" ++ form_urlencode b
                   \/ exists b', a = "?month=" ++ form_urlencode b
                                     ++ "&months=" ++ form_urlencode b')).
    { unfold p, InsightsBudgets.getBudgetSuggestion. cbn [path].
      destruct month as [[|c m]|]; destruct months as [[| |q]|];
        cbn [string_truthy number_truthy];
        try destruct (negb (Qis_zero q));
        eexists; eexists; (split; [reflexivity|]);
        first [ left; reflexivity
              | right; left; reflexivity
              | right; right; left; reflexivity
              | right; right; right; eexists; reflexivity ].
      Unshelve. all: exact "". }
    destruct Hq as (a & b & -> & [->|[->|[->|[b' ->]]]]);
      rewrite !count_char_app, ?form_urlencode_reserved by reflexivity;
      vm_compute; repeat split; lia.
Qed.

(** X8: for a key and a month of ASCII characters, the Analytics page
    sends the Gemini key trimmed, and sends none when the field holds
    white space only; the persona and the month go out as they are when
    they are not empty. *)
Theorem analytics_load_request (month who geminiKey : string) :
  ascii_text geminiKey = true ->
  ascii_text month = true ->
  exists hs : gmap string string,
    headers (AnalyticsPage.load month who geminiKey) = Some hs
    /\ hs !! "X-Gemini-Api-Key"
       = (if forallb_string is_white_space geminiKey then None
          else Some (trim geminiKey))
    /\ (forall v, hs !! "X-Gemini-Api-Key" = Some v ->
                  v <> "" /\ starts_with_space v = false /\ ends_with_space v = false)
    /\ hs !! "X-Insight-Persona" = nonempty (Some who)
    /\ path (AnalyticsPage.load month who geminiKey)
       = "/insights/budget-suggestion"
         ++ (if string_truthy month then "?month=" ++ encodeURIComponent month else "").
Proof.
  intros _ _.
  unfold AnalyticsPage.load, AnalyticsPage.load_params,
    InsightsAnalytics.getBudgetSuggestion.
  cbn [headers path mbind option_bind InsightsAnalytics.month
       InsightsAnalytics.geminiApiKey InsightsAnalytics.persona].
  eexists. split; [reflexivity|].
  assert (Hkey : forallb_string is_white_space geminiKey
                 = negb (string_truthy (trim geminiKey))).
  { destruct (trim geminiKey) as [|c t] eqn:Ht; cbn [string_truthy negb].
    - apply trim_empty. exact Ht.
    - apply not_true_iff_false. intros Hws. apply trim_empty in Hws. congruence. }
  rewrite Hkey.
  pose proof (trim_ends geminiKey) as [Hs He].
  unfold InsightsAnalytics.set_if_truthy, nonempty.
  destruct (trim geminiKey) as [|c t] eqn:Ht; destruct who as [|c' w];
    cbn [string_truthy negb]; repeat split; intros; simplify_map_eq;
    try reflexivity; try discriminate; try assumption.
Qed.

Lemma analytics_load_request_witness :
  exists hs : gmap string string,
    headers (AnalyticsPage.load "2026-02" "Balanced coach" "  key-1 ") = Some hs
    /\ hs !! "X-Gemini-Api-Key" = Some "key-1"
    /\ hs !! "X-Insight-Persona" = Some "Balanced coach"
    /\ path (AnalyticsPage.load "2026-02" "Balanced coach" "  key-1 ")
       = "/insights/budget-suggestion?month=2026-02".
Proof.
  destruct (analytics_load_request "2026-02" "Balanced coach" "  key-1 "
              eq_refl eq_refl) as (hs & Hh & Hkey & _ & Hwho & Hpath).
  exists hs. split; [exact Hh|]. split; [exact Hkey|]. split; [exact Hwho|].
  exact Hpath.
Defined.

(** ** The Budgets page *)

Local Open Scope Q_scope.

Lemma Qle_bool_false (a b : Q) : Qle_bool a b = false <-> b < a.
Proof.
  rewrite <- not_true_iff_false, Qle_bool_iff.
  split; [apply Qnot_le_lt | apply Qlt_not_le].
Qed.

(** [Math.max(2, Math.min(100, pct))] is a number from 2 to 100 unless
    [pct] is NaN. *)
Lemma clamp_2_100 (pct : JSNumber) :
  JSArith.is_nan pct = false ->
  exists w, JSArith.Math_max [JFinite 2; JSArith.Math_min [JFinite 100; pct]] = JFinite w
            /\ 2 <= w <= 100.
Proof.
  intros Hnan. unfold JSArith.Math_max, JSArith.Math_min. cbn [fold_left].
  change (JSArith.max2 (JInfinity true) (JFinite 2)) with (JFinite 2).
  change (JSArith.min2 (JInfinity false) (JFinite 100)) with (JFinite 100).
  destruct pct as [|[]|p]; try discriminate Hnan.
  - exists 2. split; [reflexivity|]. split; discriminate.
  - exists 100. split; [reflexivity|]. split; discriminate.
  - unfold JSArith.min2. cbn [JSArith.is_nan orb JSArith.gt].
    destruct (Qle_bool 100 p) eqn:H100; cbn [negb].
    + exists 100. split; [reflexivity|]. split; discriminate.
    + apply Qle_bool_false in H100.
      unfold JSArith.max2. cbn [JSArith.is_nan orb JSArith.gt].
      destruct (Qle_bool p 2) eqn:H2; cbn [negb].
      * exists 2. split; [reflexivity|]. split; discriminate.
      * apply Qle_bool_false in H2. exists p. split; [reflexivity|]. split; lra.
Qed.

Lemma to_number_not_nan (q : Q) : JSArith.is_nan (to_number q) = false.
Proof.
  unfold to_number. destruct (Qis_zero q); [reflexivity|]. cbv zeta.
  match goal with |- context [Qle_bool ?a ?b] => destruct (Qle_bool a b) end;
    reflexivity.
Qed.

(** The top of the scale is a finite number, at least 1. *)
Lemma fold_max_finite (l : list JSNumber) (a : Q) :
  Forall (fun x => isFinite x = true) l ->
  exists m, fold_left JSArith.max2 l (JFinite a) = JFinite m /\ a <= m.
Proof.
  intros Hall. revert a. induction Hall as [|x l Hx Hall IH]; intros a.
  - exists a. split; [reflexivity|]. apply Qle_refl.
  - destruct x as [| |b]; try discriminate Hx.
    cbn [fold_left]. unfold JSArith.max2 at 2.
    cbn [JSArith.is_nan orb JSArith.gt].
    destruct (Qle_bool b a) eqn:Hba; cbn [negb].
    + apply IH.
    + apply Qle_bool_false in Hba.
      destruct (IH b) as (m & Hm & Hle). exists m. split; [exact Hm|]. lra.
Qed.

Lemma maxVal_finite (entries : list (string * JSNumber)) (suggestedTotal : JSNumber) :
  Forall (fun e => isFinite (snd e) = true) entries ->
  isFinite suggestedTotal = true ->
  exists m, BudgetsPage.maxVal entries suggestedTotal = JFinite m /\ 1 <= m.
Proof.
  intros Hall Ht. destruct suggestedTotal as [| |t]; try discriminate Ht.
  unfold BudgetsPage.maxVal, JSArith.Math_max. cbn [fold_left].
  change (JSArith.max2 (JInfinity true) (JFinite t)) with (JFinite t).
  rewrite fold_left_app. cbn [fold_left].
  destruct (fold_max_finite (map snd entries) t) as (m & -> & _).
  { apply List.Forall_map. exact Hall. }
  unfold JSArith.max2. cbn [JSArith.is_nan orb JSArith.gt].
  destruct (Qle_bool 1 m) eqn:H1; cbn [negb].
  - exists m. split; [reflexivity|]. apply Qle_bool_iff. exact H1.
  - exists 1. split; [reflexivity|]. apply Qle_refl.
Qed.

Lemma percent_not_nan (a m : Q) :
  1 <= m ->
  JSArith.is_nan (JSArith.mul (JSArith.div (JFinite a) (JFinite m)) (JFinite 100)) = false.
Proof.
  intros Hm. cbn [JSArith.div].
  assert (Hz : Qis_zero m = false).
  { unfold Qis_zero. apply not_true_iff_false. intros H.
    apply Qeq_bool_iff in H. lra. }
  rewrite Hz. pose proof (to_number_not_nan (a / m)) as Hn.
  destruct (to_number (a / m)) as [|sg|p]; [discriminate Hn| |].
  - reflexivity.
  - cbn [JSArith.mul]. apply to_number_not_nan.
Qed.

(** X9: for totals that are finite numbers, every bar of the monthly
    history has a width from 2 to 100 percent. *)
Theorem history_bar_width (entries : list (string * JSNumber))
    (suggestedTotal : JSNumber) :
  Forall (fun e => isFinite (snd e) = true) entries ->
  isFinite suggestedTotal = true ->
  length (BudgetsPage.MonthlyHistoryBars entries suggestedTotal) = length entries
  /\ Forall (fun b => exists w, BudgetsPage.bar_width b = JFinite w /\ 2 <= w <= 100)
            (BudgetsPage.MonthlyHistoryBars entries suggestedTotal).
Proof.
  intros Hall Ht.
  destruct (maxVal_finite entries suggestedTotal Hall Ht) as (m & Hm & H1).
  unfold BudgetsPage.MonthlyHistoryBars. rewrite Hm.
  split; [apply length_map|].
  apply List.Forall_map.
  eapply List.Forall_impl; [|exact Hall].
  intros [ym amount] Hfin. cbn [snd] in Hfin.
  destruct amount as [| |a]; try discriminate Hfin.
  cbn [BudgetsPage.history_bar BudgetsPage.bar_width].
  apply clamp_2_100, percent_not_nan, H1.
Qed.

Lemma history_bar_width_witness :
  Forall (fun b => exists w, BudgetsPage.bar_width b = JFinite w /\ 2 <= w <= 100)
         (BudgetsPage.MonthlyHistoryBars
            [("2026-01", JFinite 1000); ("2026-02", JFinite 1200); ("2026-03", JFinite 0)]
            (JFinite 1100)).
Proof.
  apply (history_bar_width
           [("2026-01", JFinite 1000); ("2026-02", JFinite 1200); ("2026-03", JFinite 0)]
           (JFinite 1100)).
  - repeat constructor.
  - reflexivity.
Defined.

Example history_bars_scenario :
  map BudgetsPage.bar_width
    (BudgetsPage.MonthlyHistoryBars
       [("2026-01", JFinite 1000); ("2026-02", JFinite 1200); ("2026-03", JFinite 0)]
       (JFinite 1100))
  = [JFinite (2932031007402667 # 35184372088832); JFinite 100; JFinite 2].
Proof. vm_compute. reflexivity. Qed.

(** X10: the bar of a category is never wider than 100 percent, and is 0
    wide when the suggested total is not a positive number. *)
Theorem category_width_bounds (suggested_limit suggestedTotal : JSNumber) :
  JSArith.gt (BudgetsPage.category_width suggested_limit suggestedTotal) (JFinite 100)
  = false
  /\ (JSArith.gt suggestedTotal (JFinite 0) = false ->
      BudgetsPage.category_width suggested_limit suggestedTotal = JFinite 0).
Proof.
  unfold BudgetsPage.category_width, JSArith.Math_min. cbn [fold_left].
  split.
  - destruct (BudgetsPage.pctOfTotal suggested_limit suggestedTotal) as [|[]|p];
      try reflexivity.
    unfold JSArith.min2 at 2. cbn [JSArith.is_nan orb JSArith.gt].
    unfold JSArith.min2. cbn [JSArith.is_nan orb JSArith.gt negb].
    destruct (Qle_bool p 100) eqn:Hp; cbn [negb JSArith.gt].
    + rewrite Hp. reflexivity.
    + reflexivity.
  - intros Hgt. unfold BudgetsPage.pctOfTotal. rewrite Hgt. reflexivity.
Qed.

Lemma category_width_bounds_witness :
  BudgetsPage.category_width (JFinite 300) (JFinite 0) = JFinite 0.
Proof.
  apply (category_width_bounds (JFinite 300) (JFinite 0)). reflexivity.
Defined.

Local Close Scope Q_scope.

(** X11: every category gets one of the six colours, whatever its
    position, and the colours repeat every six categories. *)
Theorem colorClass_in_range (index : nat) :
  (exists c, BudgetsPage.colorClass index = Some c /\ In c BudgetsPage.CATEGORY_COLORS)
  /\ BudgetsPage.colorClass (index + 6) = BudgetsPage.colorClass index.
Proof.
  unfold BudgetsPage.colorClass.
  change (length BudgetsPage.CATEGORY_COLORS) with 6%nat.
  split.
  - assert (Hlt : (index mod 6 < length BudgetsPage.CATEGORY_COLORS)%nat)
      by (apply Nat.mod_upper_bound; discriminate).
    apply lookup_lt_is_Some in Hlt. destruct Hlt as [c Hc].
    exists c. split; [exact Hc|].
    apply list_elem_of_In. eapply list_elem_of_lookup_2. exact Hc.
  - replace (index + 6)%nat with (index + 1 * 6)%nat by lia.
    rewrite Nat.Div0.mod_add. reflexivity.
Qed.

(** X12: the badge and the colour of the confidence label agree on the
    good and the middling labels: the badge is [default] exactly when the
    colour is that of success, which is for [high] and [very_high], and
    [secondary] exactly when the colour warns, which is for [medium];
    the icon and the colour of a trend always have the same colour. *)
Theorem label_styles_agree (label : string) :
  (BudgetsPage.confidenceBadgeVariant label = "default"
   <-> BudgetsPage.confidenceColor label = "text-success")
  /\ (BudgetsPage.confidenceBadgeVariant label = "default"
      <-> label = "high" \/ label = "very_high")
  /\ (BudgetsPage.confidenceBadgeVariant label = "secondary"
      <-> BudgetsPage.confidenceColor label = "text-warning")
  /\ (BudgetsPage.confidenceBadgeVariant label = "secondary" <-> label = "medium")
  /\ (BudgetsPage.trendIcon label).2 = "w-3 h-3 " ++ BudgetsPage.trendColor label.
Proof.
  unfold BudgetsPage.confidenceBadgeVariant, BudgetsPage.confidenceColor,
    BudgetsPage.trendIcon, BudgetsPage.trendColor.
  destruct (String.eqb_spec label "very_high") as [->|Hvh];
    [cbn; intuition congruence|].
  destruct (String.eqb_spec label "high") as [->|Hh];
    [cbn; intuition congruence|].
  destruct (String.eqb_spec label "medium") as [->|Hm];
    [cbn; intuition congruence|].
  destruct (String.eqb_spec label "low") as [->|Hl];
    [cbn; intuition congruence|].
  destruct (String.eqb_spec label "increasing") as [->|Hi];
    [cbn; intuition congruence|].
  destruct (String.eqb_spec label "decreasing") as [->|Hd];
    cbn; intuition congruence.
Qed.

(** ** The route guard *)

(** X13: [checkAuth] decides once and last: while the component is
    mounted the status is set exactly once, as the last thing done, to
    [authed] when there is an access token or the refresh token is
    accepted and to [guest] otherwise, never back to [checking]; whether
    the profile can be fetched plays no part.  After an unmount the
    status is not set at all. *)
Theorem checkAuth_status (access refreshToken : option string)
    (profile : option (option string)) (refreshed : option string) (active : bool) :
  let effects := ProtectedRoute.checkAuth access refreshToken profile refreshed active in
  let s := expected_status access refreshToken refreshed in
  s <> ProtectedRoute.checking
  /\ List.filter is_set_status effects
     = (if active then [ProtectedRoute.SetStatus s] else [])
  /\ (active = true -> last effects = Some (ProtectedRoute.SetStatus s))
  /\ ProtectedRoute.final_status effects
     = (if active then s else ProtectedRoute.checking).
Proof.
  unfold ProtectedRoute.checkAuth, expected_status, nonempty,
    ProtectedRoute.present, ProtectedRoute.fetch_profile,
    ProtectedRoute.set_status.
  destruct access as [[|c a]|]; destruct refreshToken as [[|c' r]|];
    destruct refreshed as [t|]; destruct profile as [p|]; destruct active;
    cbn; repeat split; try discriminate; intros; discriminate.
Qed.

(** X14: what [checkAuth] does to the stored tokens and currency.  The
    tokens are cleared, both of them, exactly when there was no access
    token and the refresh token was refused; a token is stored exactly
    when the refresh succeeded, and it is the one received; the server is
    asked to refresh only without an access token; a profile that cannot
    be fetched changes nothing but the currency, which, when it is set,
    is the preferred currency of the profile or INR, never empty. *)
Theorem checkAuth_store (access refreshToken : option string)
    (profile : option (option string)) (refreshed : option string) (active : bool) :
  let effects := ProtectedRoute.checkAuth access refreshToken profile refreshed active in
  let refused :=
    match nonempty access, nonempty refreshToken, refreshed with
    | None, Some _, None => true
    | _, _, _ => false
    end in
  (In ProtectedRoute.ClearToken effects <-> refused = true)
  /\ (In ProtectedRoute.ClearRefreshToken effects <-> refused = true)
  /\ (forall t, In (ProtectedRoute.SetToken t) effects
                <-> nonempty access = None /\ nonempty refreshToken <> None
                    /\ refreshed = Some t)
  /\ (forall rt, In (ProtectedRoute.CallRefresh rt) effects
                 <-> nonempty access = None /\ nonempty refreshToken = Some rt)
  /\ (forall c, In (ProtectedRoute.SetCurrency c) effects ->
                c <> "" /\ exists p, profile = Some p /\ c = or_else p "INR")
  /\ List.filter (fun e => negb (is_set_currency e)) effects
     = ProtectedRoute.checkAuth access refreshToken None refreshed active.
Proof.
  unfold ProtectedRoute.checkAuth, nonempty, ProtectedRoute.present,
    ProtectedRoute.fetch_profile, ProtectedRoute.set_status.
  assert (Hor : forall p, or_else p "INR" <> "").
  { intros [[|c s]|]; discriminate. }
  destruct access as [[|c a]|]; destruct refreshToken as [[|c' r]|];
    destruct refreshed as [t|]; destruct profile as [p|]; destruct active;
    cbn; repeat split; intros;
    repeat match goal with
      | H : _ \/ _ |- _ => destruct H
      | H : _ /\ _ |- _ => destruct H
      | H : False |- _ => destruct H
      end;
    simplify_eq; eauto; try discriminate; try congruence;
    try (apply Hor).
Qed.

(** ** Money, requests and toasts *)

Lemma toUpperCase_truthy (s : string) :
  string_truthy (toUpperCase s) = string_truthy s.
Proof. destruct s; reflexivity. Qed.

(** X15: [formatMoney] does not look at the case of the currency code,
    and a code that is given wins over the stored currency; without a
    code the stored currency is used as a code would be. *)
Theorem formatMoney_code (h : Host) (stored stored' : option string)
    (amount : option JSNumber) (c : ascii) (code : string) :
  Currency.formatMoney h stored amount (Some (String c code))
  = Currency.formatMoney h stored' amount (Some (toUpperCase (String c code)))
  /\ Currency.formatMoney h (Some (String c code)) amount None
     = Currency.formatMoney h stored amount (Some (String c code))
  /\ Currency.formatMoney h (Some (String c code)) amount (Some "")
     = Currency.formatMoney h stored amount (Some (String c code)).
Proof.
  unfold Currency.formatMoney, Currency.currency_of.
  assert (H1 : forall st, or_else (Some (String c code)) st = String c code)
    by reflexivity.
  assert (H2 : forall st, or_else (Some (toUpperCase (String c code))) st
                          = toUpperCase (String c code)) by reflexivity.
  rewrite !H1, !H2, toUpperCase_idem.
  repeat split.
Qed.

Lemma split_length (sep : ascii) (s : string) :
  length (split sep s) = S (count_char sep s).
Proof.
  induction s as [|c s IH]; [reflexivity|].
  cbn [split count_char].
  destruct (Ascii.eqb c sep); cbn [length Nat.add].
  - rewrite IH. reflexivity.
  - destruct (split sep s) as [|tok rest] eqn:Hs; cbn [length] in *; lia.
Qed.

(** The call of [scheduleBillReminders] is a POST whose body is empty or
    has a list under [offsets_days] that is not empty, holds finite
    numbers from 0 upwards only, and has at most one number for each
    piece between the commas of the input. *)
Lemma schedule_call_shape (h : Host) (bill offsetsInput : string) (call : ApiCall) :
  Reminders.onScheduleBillReminders h bill offsetsInput = Some call ->
  bill <> ""
  /\ http_method call = Some "POST"
  /\ exists b : gmap string (list JSNumber),
       body call = Some b
       /\ (b = ∅
           \/ exists l, b = {[ "offsets_days" := l ]}
                        /\ l <> []
                        /\ Forall (fun x => isFinite x = true /\ ge_zero x = true) l
                        /\ (length l <= S (count_char "," offsetsInput))%nat).
Proof.
  unfold Reminders.onScheduleBillReminders.
  destruct bill as [|c bill]; [discriminate|]. cbn [string_truthy negb].
  intros [= <-]. split; [discriminate|]. split; [reflexivity|].
  unfold Reminders.scheduleBillReminders. cbn [body].
  pose proof (parse_offsets_valid offsetsInput) as Hvalid.
  assert (Hlen : (length (Reminders.parse_offsets offsetsInput)
                  <= S (count_char "," offsetsInput))%nat).
  { unfold Reminders.parse_offsets.
    etransitivity; [apply List.filter_length_le|].
    rewrite length_map, split_length. lia. }
  destruct (Reminders.parse_offsets offsetsInput) as [|x l].
  - eexists. split; [reflexivity|]. left. reflexivity.
  - eexists. split; [reflexivity|]. right.
    exists (x :: l). repeat split; [discriminate | exact Hvalid | exact Hlen].
Qed.

(** X16: the requests of [onScheduleBillReminders].  Without a bill it
    makes none, shows one toast and leaves the page as it is.  With a
    bill the first request is a POST whose body is empty or has a list
    under [offsets_days] that is not empty, holds finite numbers from 0
    upwards only, and has at most one number for each piece between the
    commas of the input; a GET of [/reminders] follows exactly when the
    POST succeeded, and nothing else; [saving] ends false. *)
Theorem onScheduleBillReminders_requests (h : Host)
    (scheduled : RemindersPage.Outcome JSNumber)
    (listed : RemindersPage.Outcome (list RemindersPage.Reminder))
    (st : RemindersPage.Page) :
  let '(st', toasts, calls) :=
    RemindersPage.onScheduleBillReminders h scheduled listed st in
  match calls with
  | [] =>
      RemindersPage.selectedBillId st = ""
      /\ st' = st
      /\ toasts = [ {| RemindersPage.title := "Select a bill first";
                       RemindersPage.description := None |} ]
  | post :: rest =>
      RemindersPage.selectedBillId st <> ""
      /\ http_method post = Some "POST"
      /\ (exists b : gmap string (list JSNumber),
            body post = Some b
            /\ (b = ∅
                \/ exists l, b = {[ "offsets_days" := l ]}
                             /\ l <> []
                             /\ Forall (fun x => isFinite x = true /\ ge_zero x = true) l
                             /\ (length l
                                 <= S (count_char "," (RemindersPage.offsetsInput st)))%nat))
      /\ rest = match scheduled with
                | RemindersPage.Resolved _ =>
                    [ {| path := "/reminders"; http_method := None;
                         headers := None; body := None |} ]
                | RemindersPage.Rejected _ => []
                end
      /\ RemindersPage.saving st' = false
  end.
Proof.
  unfold RemindersPage.onScheduleBillReminders.
  destruct (Reminders.onScheduleBillReminders h (RemindersPage.selectedBillId st)
              (RemindersPage.offsetsInput st)) as [call|] eqn:Hcall.
  - destruct (schedule_call_shape _ _ _ _ Hcall) as (Hbill & Hpost & Hbody).
    destruct scheduled as [created|e].
    + destruct (RemindersPage.refresh listed _) as [st' toasts].
      repeat split; assumption.
    + repeat split; assumption.
  - unfold Reminders.onScheduleBillReminders in Hcall.
    destruct (RemindersPage.selectedBillId st) as [|c bill]; [|discriminate Hcall].
    repeat split.
Qed.

Example schedule_then_reload :
  (RemindersPage.onScheduleBillReminders example_host (RemindersPage.Resolved (JFinite 2))
     (RemindersPage.Resolved [])
     (RemindersPage.setBills [] "1" example_page)).2
  = [ {| path := "/reminders/bills/1/schedule"; http_method := Some "POST";
         headers := None; body := Some {[ "offsets_days" := [JFinite 0] ]} |};
      {| path := "/reminders"; http_method := None; headers := None; body := None |} ].
Proof. vm_compute. reflexivity. Qed.

(** X17: a toast of [refresh], [loadBills], [onCreate] or [onDelete]
    that has a description has one that is not empty: an error without a
    message is shown as "Please try again." *)
Theorem toasts_have_text (h : Host) (d : RemindersPage.DateHost)
    (listed : RemindersPage.Outcome (list RemindersPage.Reminder))
    (billed : RemindersPage.Outcome (list RemindersPage.Bill))
    (done : RemindersPage.Outcome unit) (now : string) (target : JSNumber)
    (st : RemindersPage.Page) (t : RemindersPage.Toast) :
  In t ((RemindersPage.refresh listed st).2
        ++ (RemindersPage.loadBills h billed st).2
        ++ (RemindersPage.onCreate d done listed now st).1.2
        ++ (RemindersPage.onDelete h target done st).1.2)%list ->
  RemindersPage.title t <> ""
  /\ RemindersPage.description t <> Some "".
Proof.
  assert (Hd : forall m ti, ti <> "" ->
             RemindersPage.title
               {| RemindersPage.title := ti;
                  RemindersPage.description := Some (RemindersPage.or_try_again m) |}
             <> ""
             /\ RemindersPage.description
                  {| RemindersPage.title := ti;
                     RemindersPage.description := Some (RemindersPage.or_try_again m) |}
                <> Some "").
  { intros m ti Hti. split; [exact Hti|].
    cbn. intros [= H]. exact (or_try_again_not_empty m H). }
  assert (Hrefresh : forall st0, In t (RemindersPage.refresh listed st0).2 ->
             RemindersPage.title t <> "" /\ RemindersPage.description t <> Some "").
  { intros st0. unfold RemindersPage.refresh.
    destruct listed as [data|e]; cbn [snd]; [intros []|].
    intros [<-|[]]. apply Hd. discriminate. }
  rewrite !List.in_app_iff. intros [H|[H|[H|H]]].
  - exact (Hrefresh _ H).
  - unfold RemindersPage.loadBills in H. destruct billed; cbn [snd] in H.
    + destruct H.
    + destruct H as [<-|[]]. split; discriminate.
  - unfold RemindersPage.onCreate in H.
    destruct (negb _); [destruct H|].
    destruct (RemindersPage.toISOString d _).
    + destruct done as [[]|e].
      * destruct (RemindersPage.refresh listed _) as [st' toasts] eqn:Hr.
        cbn [fst snd] in H. apply List.in_app_iff in H. destruct H as [H|[<-|[]]].
        -- apply (Hrefresh (RemindersPage.setSaving true st)). rewrite Hr. exact H.
        -- split; discriminate.
      * cbn [fst snd] in H. destruct H as [<-|[]]. apply Hd. discriminate.
    + cbn [fst snd] in H. destruct H as [<-|[]]. apply Hd. discriminate.
  - unfold RemindersPage.onDelete in H. destruct done as [[]|e]; cbn [fst snd] in H.
    + destruct H as [<-|[]]. split; discriminate.
    + destruct H as [<-|[]]. apply Hd. discriminate.
Qed.

Lemma toasts_have_text_witness :
  RemindersPage.description
    {| RemindersPage.title := "Failed to delete reminder";
       RemindersPage.description := Some "Please try again." |}
  <> Some "".
Proof.
  apply (toasts_have_text example_host example_dates (RemindersPage.Resolved [])
           (RemindersPage.Resolved [])
           (RemindersPage.Rejected (RemindersPage.ErrorObject ""))
           "now" (JFinite 1) example_page).
  vm_compute. right. left. reflexivity.
Defined.

(** ** [formatMoney]: the string it returns and the amount in it *)

Lemma two_digits_spec (d : Z) :
  (0 <= d < 100)%Z ->
  exists c1 c2,
    two_digits d = String c1 (String c2 "")
    /\ is_digit c1 = true /\ is_digit c2 = true
    /\ (10 * digit_value c1 + digit_value c2 = d)%Z.
Proof.
  intros Hd.
  assert (Hall : forallb two_digits_ok (map Z.of_nat (seq 0 100)) = true)
    by (vm_compute; reflexivity).
  rewrite forallb_forall in Hall.
  assert (Hok : two_digits_ok d = true).
  { apply Hall. apply List.in_map_iff. exists (Z.to_nat d). split; [lia|].
    apply List.in_seq. lia. }
  unfold two_digits_ok in Hok.
  destruct (two_digits d) as [|c1 [|c2 [|c3 t]]]; try discriminate Hok.
  exists c1, c2.
  apply andb_true_iff in Hok. destruct Hok as [Hok Hv].
  apply andb_true_iff in Hok. destruct Hok as [H1 H2].
  apply Z.eqb_eq in Hv. auto.
Qed.

Lemma digits_value_app (base acc : Z) (s t : string) :
  digits_value base acc (s ++ t) = digits_value base (digits_value base acc s) t.
Proof.
  revert acc. induction s as [|c s IH]; intros acc; [reflexivity|].
  rewrite app_cons. cbn [digits_value]. apply IH.
Qed.

Lemma span_stop (p : ascii -> bool) (s r : string) (c : ascii) :
  forallb_string p s = true -> p c = false ->
  span p (s ++ String c r) = (s, String c r).
Proof.
  intros Hs Hc. induction s as [|c' s IH].
  - change ("" ++ String c r) with (String c r). cbn [span]. rewrite Hc. reflexivity.
  - cbn [forallb_string] in Hs. apply andb_true_iff in Hs. destruct Hs as [Hc' Hs].
    rewrite app_cons. cbn [span]. rewrite Hc', (IH Hs). reflexivity.
Qed.

Lemma digit_not_minus (c : ascii) : is_digit c = true -> Ascii.eqb c "-" = false.
Proof.
  intros Hc. destruct c as [[] [] [] [] [] [] [] []]; try discriminate Hc; reflexivity.
Qed.

(** A numeral with two decimals denotes so many hundredths. *)
Lemma unsigned_two_decimals (int_part : string) (c1 c2 : ascii) :
  forallb_string is_digit int_part = true -> int_part <> "" ->
  is_digit c1 = true -> is_digit c2 = true ->
  unsigned_decimal_value (int_part ++ "." ++ String c1 (String c2 ""))
  = Some (Qmake (digits_value 10 0 int_part * 100
                 + (10 * digit_value c1 + digit_value c2)) 100).
Proof.
  intros Hd Hne H1 H2. unfold unsigned_decimal_value.
  change ("." ++ String c1 (String c2 "")) with (String "." (String c1 (String c2 ""))).
  rewrite (span_stop is_digit int_part _ "." Hd eq_refl).
  destruct int_part as [|c i] eqn:Hi; [congruence|]. rewrite <- Hi.
  cbn [forallb_string]. rewrite H1, H2. cbn [andb].
  rewrite digits_value_app. cbn [digits_value String.length].
  change (Z.to_pos (10 ^ Z.of_nat 2)) with 100%positive.
  f_equal. f_equal. ring.
Qed.

Local Open Scope Q_scope.

Lemma cents_bounds (a : Q) :
  0 <= a -> a < inject_Z (10 ^ 21) ->
  (0 <= cents a <= 10 ^ 23)%Z /\ Qabs ((cents a # 100) - a) <= 1 # 200.
Proof.
  intros H0 Hlt. unfold cents.
  set (x := a * 100 + (1 # 2)).
  pose proof (Qfloor_le x) as Hle. pose proof (Qlt_floor x) as Hgt.
  set (n := Qfloor x) in *.
  assert (Hn : inject_Z n == n # 1) by reflexivity.
  assert (Hq : (n # 100) == inject_Z n * (1 # 100)).
  { unfold Qeq, Qmult, inject_Z. cbn [Qnum Qden]. lia. }
  assert (Hn1 : inject_Z (n + 1) == inject_Z n + 1).
  { rewrite inject_Z_plus. reflexivity. }
  rewrite Hn1 in Hgt.
  split.
  - split.
    + assert (H : 0 < inject_Z n + 1) by (unfold x in *; lra).
      rewrite <- Hn1 in H. change 0 with (inject_Z 0) in H.
      rewrite <- Zlt_Qlt in H. lia.
    + assert (H : inject_Z n < inject_Z (10 ^ 23 + 1)).
      { assert (H23 : inject_Z (10 ^ 23 + 1) == inject_Z (10 ^ 21) * 100 + 1)
          by (vm_compute; reflexivity).
        rewrite H23. unfold x in *. lra. }
      rewrite <- Zlt_Qlt in H. lia.
  - apply (proj2 (Qabs_Qle_condition _ _)). rewrite Hq. unfold x in *.
    clear Hlt Hn Hq Hn1. split; lra.
Qed.

(** What [toFixed(2)] prints for a number below [10 ^ 21] in magnitude is
    the decimal numeral of a whole number of cents within half a cent of
    the number. *)
Lemma toFixed2_denotes (h : Host) (q : Q) :
  Qabs q < inject_Z (10 ^ 21) ->
  exists r k,
    decimal_value (toFixed2 h (JFinite q)) = Some r
    /\ r == k # 100
    /\ Qabs (r - q) <= 1 # 200.
Proof.
  intros Hq. cbn [toFixed2].
  assert (Hbig : Qle_bool (inject_Z (10 ^ 21)) (Qabs q) = false)
    by (apply Qle_bool_false; exact Hq).
  rewrite Hbig. fold (cents (Qabs q)).
  destruct (cents_bounds (Qabs q) (Qabs_nonneg q) Hq) as [Hn Hacc].
  set (n := cents (Qabs q)) in *.
  assert (Hdiv : (0 <= n / 100)%Z) by (apply Z.div_pos; lia).
  assert (Hmod : (0 <= n mod 100 < 100)%Z) by (apply Z.mod_pos_bound; lia).
  destruct (two_digits_spec _ Hmod) as (c1 & c2 & -> & H1 & H2 & Hv).
  assert (Hi : pretty (n / 100)%Z = pretty (Z.to_N (n / 100))).
  { rewrite <- pretty_Z_of_N, Z2N.id by lia. reflexivity. }
  rewrite Hi.
  destruct (pretty_N_numeral (Z.to_N (n / 100))) as (Hd & Hne & Hval).
  rewrite Z2N.id in Hval by lia.
  set (int_part := pretty (Z.to_N (n / 100))) in *.
  pose proof (unsigned_two_decimals int_part c1 c2 Hd Hne H1 H2) as Hvalue.
  rewrite Hval, Hv in Hvalue.
  replace (n / 100 * 100 + n mod 100)%Z with n in Hvalue
    by (rewrite (Z.div_mod n 100) at 1 by lia; ring).
  set (numeral := (int_part ++ "." ++ String c1 (String c2 ""))%string) in *.
  assert (Hshape : exists c i, numeral = String c i /\ is_digit c = true).
  { unfold numeral. destruct int_part as [|c i]; [congruence|].
    exists c. eexists. split; [apply app_cons|].
    cbn [forallb_string] in Hd. apply andb_true_iff in Hd. apply Hd. }
  destruct Hshape as (c & i & Hshape & Hc).
  destruct (Qle_bool 0 q) eqn:Hsign.
  - apply Qle_bool_iff in Hsign.
    change ("" ++ numeral)%string with numeral.
    exists (n # 100), n.
    split.
    + unfold decimal_value. rewrite Hshape, (digit_not_minus c Hc), <- Hshape.
      exact Hvalue.
    + split; [reflexivity|]. rewrite (Qabs_pos q Hsign) in Hacc. exact Hacc.
  - apply Qle_bool_false in Hsign.
    change ("-" ++ numeral)%string with (String "-" numeral).
    exists (- (n # 100)), (- n)%Z.
    split.
    + unfold decimal_value. change (Ascii.eqb "-" "-") with true. cbv iota.
      rewrite Hvalue. reflexivity.
    + split; [reflexivity|].
      rewrite (Qabs_neg q) in Hacc by lra.
      apply Qabs_Qle_condition in Hacc.
      apply (proj2 (Qabs_Qle_condition _ _)). split; lra.
Qed.



(** X19: in the fallback for a currency code that is not well formed,
    the text after the code is the amount to the cent: it is the decimal
    numeral of a whole number of cents within half a cent of the amount,
    for a code of ASCII characters and an amount that is a double below
    [10 ^ 21] in magnitude. *)
Theorem formatMoney_fallback_amount (h : Host) (stored currencyCode : option string)
    (q : Q) :
  ascii_text (or_else currencyCode (or_else stored "USD")) = true ->
  Currency.IsWellFormedCurrencyCode (Currency.currency_of stored currencyCode) = false ->
  is_Number (JFinite q) = true ->
  Qabs q < inject_Z (10 ^ 21) ->
  exists text r k,
    Currency.formatMoney h stored (Some (JFinite q)) currencyCode
    = Normal (Currency.currency_of stored currencyCode ++ " " ++ text)%string
    /\ decimal_value text = Some r
    /\ r == k # 100
    /\ Qabs (r - q) <= 1 # 200.
Proof.
  intros _ Hcode _ Hq.
  unfold Currency.formatMoney, Currency.NumberFormat. rewrite Hcode.
  cbn [try_catch number_or_zero number_truthy].
  destruct (Qis_zero q) eqn:Hz; cbn [negb].
  - exists "0.00", (0 # 100), 0%Z. split; [reflexivity|]. split; [reflexivity|].
    split; [reflexivity|].
    unfold Qis_zero in Hz. apply Qeq_bool_iff in Hz.
    apply (proj2 (Qabs_Qle_condition _ _)). split; lra.
  - destruct (toFixed2_denotes h q Hq) as (r & k & Hr & Hk & Hacc).
    exists (toFixed2 h (JFinite q)), r, k. repeat split; assumption.
Qed.

Lemma formatMoney_fallback_amount_witness :
  exists text r k,
    Currency.formatMoney example_host None (Some (JFinite (98765 # 8))) (Some "euro")
    = Normal ("EURO" ++ " " ++ text)%string
    /\ decimal_value text = Some r
    /\ r == k # 100
    /\ Qabs (r - (98765 # 8)) <= 1 # 200.
Proof.
  apply (formatMoney_fallback_amount example_host None (Some "euro") (98765 # 8));
    reflexivity.
Defined.

Example fallback_rounds_half_up :
  Currency.formatMoney example_host None (Some (JFinite (98765 # 8))) (Some "euro")
  = Normal "EURO 12345.63".
Proof. vm_compute. reflexivity. Qed.

Example Number_of_cents_is_a_double :
  StringToNumber "0.13" = JFinite (1170935903116329 # 9007199254740992).
Proof. vm_compute. reflexivity. Qed.

Local Close Scope Q_scope.

(** ** The request of the Budgets page *)

Lemma encode_with_id (keep : ascii -> bool) (special : ascii -> option string)
    (s : string) :
  forallb_string (fun c => keep c && negb (is_Some_string (special c))) s = true ->
  encode_with keep special s = s.
Proof.
  induction s as [|c s IH]; [reflexivity|].
  cbn [forallb_string encode_with]. intros H.
  apply andb_true_iff in H. destruct H as [Hc Hs].
  apply andb_true_iff in Hc. destruct Hc as [Hk Hsp].
  rewrite (IH Hs), Hk. unfold is_Some_string in Hsp.
  destruct (special c); [discriminate Hsp|]. reflexivity.
Qed.

Lemma month_text_plain (s : string) :
  forallb_string month_char s = true ->
  form_urlencode s = s /\ encodeURIComponent s = s.
Proof.
  intros Hs. split; apply encode_with_id;
    (induction s as [|c s IH]; [reflexivity|]);
    cbn [forallb_string] in *; apply andb_true_iff in Hs; destruct Hs as [Hc Hs];
    rewrite (IH Hs), andb_true_r; clear IH Hs;
    destruct c as [[] [] [] [] [] [] [] []]; try discriminate Hc; reflexivity.
Qed.

Lemma digits_are_month_chars (s : string) :
  forallb_string is_digit s = true -> forallb_string month_char s = true.
Proof.
  induction s as [|c s IH]; [reflexivity|].
  cbn [forallb_string]. intros H. apply andb_true_iff in H. destruct H as [Hc Hs].
  rewrite (IH Hs), andb_true_r. unfold month_char. rewrite Hc. reflexivity.
Qed.

(** X20: for a month written with digits and hyphens, as YYYY-MM is, and
    a lookback that is a whole number from 1 to [2 ^ 53], the Budgets
    page requests [?month=<month>&months=<lookback>] with both values as
    they are, nothing escaped; the Analytics page requests
    [?month=<month>] for such a month. *)
Theorem pages_request_path (h : Host) (c : ascii) (m : string) (n : N)
    (who geminiKey : string) :
  forallb_string month_char (String c m) = true ->
  (0 < Z.of_N n <= safe_bound)%Z ->
  path (BudgetsPage.fetchSuggestion h (String c m) (JFinite (inject_Z (Z.of_N n))))
  = "/insights/budget-suggestion?month=" ++ String c m ++ "&months=" ++ pretty n
  /\ path (AnalyticsPage.load (String c m) who geminiKey)
     = "/insights/budget-suggestion?month=" ++ String c m.
Proof.
  intros Hm Hn.
  destruct (month_text_plain _ Hm) as [Hform Huri].
  destruct (number_string_round_trip h n (proj2 Hn)) as [Hstr _].
  destruct (pretty_N_numeral n) as (Hd & _ & _).
  destruct (month_text_plain _ (digits_are_month_chars _ Hd)) as [Hform' _].
  split.
  - assert (Hnz : number_truthy (JFinite (inject_Z (Z.of_N n))) = true).
    { cbn [number_truthy]. apply negb_true_iff.
      unfold Qis_zero. apply not_true_iff_false. intros H.
      apply Qeq_bool_iff in H. unfold Qeq in H. cbn [inject_Z Qnum Qden] in H. lia. }
    assert (Hpath : path (BudgetsPage.fetchSuggestion h (String c m)
                            (JFinite (inject_Z (Z.of_N n))))
                    = "/insights/budget-suggestion?month=" ++ form_urlencode (String c m)
                      ++ "&months="
                      ++ form_urlencode (NumberToString h (JFinite (inject_Z (Z.of_N n))))).
    { unfold BudgetsPage.fetchSuggestion, InsightsBudgets.getBudgetSuggestion.
      rewrite Hnz. reflexivity. }
    rewrite Hpath, Hstr, Hform, Hform'. reflexivity.
  - unfold AnalyticsPage.load, InsightsAnalytics.getBudgetSuggestion.
    cbn [path mbind option_bind AnalyticsPage.load_params InsightsAnalytics.month
         string_truthy].
    rewrite Huri. reflexivity.
Qed.

Lemma pages_request_path_witness :
  path (BudgetsPage.fetchSuggestion example_host "2026-02" (JFinite 6))
  = "/insights/budget-suggestion?month=2026-02&months=6".
Proof.
  apply (pages_request_path example_host "2" "026-02" 6 "Balanced coach" "").
  - reflexivity.
  - vm_compute. split; [reflexivity | discriminate].
Defined.
